(** * StartSSL_API: a shallow embedding of [startssl.py]

    The development follows the layout of the Python module: the [CSR]
    class, the [API] class and the [csr] sub-command of the command line.
    Python [str] and [bytes] values are byte strings (text is taken in its
    UTF-8 encoding), Python exceptions are values of [exn], and the methods
    of [API], which mutate [self] and talk to the network, live in a state
    and exception monad in which a raised exception keeps the mutations
    done before it.

    Libraries the module imports (httplib2, json, uuid, base64, pyasn1) are
    an interface, [Platform]; [zipfile], [urlencode] and the one regular
    expression the CSR parser uses are modelled concretely. *)

From Stdlib Require Import String Ascii List Bool Arith ZArith Lia.
Import ListNotations.
Open Scope list_scope.
Open Scope string_scope.

(** ** Python values *)

Module Py.

(** [s.endswith(suffix)] *)
Definition endswith (s suffix : string) : bool :=
  (String.length suffix <=? String.length s)%nat
  && (substring (String.length s - String.length suffix)
                (String.length suffix) s =? suffix).

(** [s.startswith(p)] *)
Definition startswith (s p : string) : bool := prefix p s.

(** [sub in s] for two strings *)
Fixpoint contains (sub s : string) : bool :=
  prefix sub s
  || match s with
     | EmptyString => false
     | String _ t => contains sub t
     end.

(** [s[-4:]] and [s[0:-4]] *)
Definition last4 (s : string) : string :=
  substring (String.length s - 4) 4 s.

Definition drop_last4 (s : string) : string :=
  substring 0 (String.length s - 4) s.

(** [s[n:]] *)
Definition from (n : nat) (s : string) : string :=
  substring n (String.length s - n) s.

(** [x in l] for a list of strings *)
Definition str_in (x : string) (l : list string) : bool :=
  existsb (String.eqb x) l.

(** [sep.join(l)] with [sep = ""] *)
Definition join (l : list string) : string := String.concat "" l.

(** [bytes.decode("ascii")] accepts the bytes below 128. *)
Definition is_ascii (s : string) : bool :=
  forallb (fun c => (nat_of_ascii c <? 128)%nat) (list_ascii_of_string s).

(** The values the domain check and the subject planner pass around:
    [None], [False] and strings. *)
Inductive value : Type :=
| VNone
| VFalse
| VStr (s : string).

Definition value_eqb (a b : value) : bool :=
  match a, b with
  | VNone, VNone => true
  | VFalse, VFalse => true
  | VStr x, VStr y => String.eqb x y
  | _, _ => false
  end.

(** [if v:] *)
Definition truthy (v : value) : bool :=
  match v with
  | VNone => false
  | VFalse => false
  | VStr s => negb (s =? "")
  end.

(** [str(v)], as ["%s" % v] prints it *)
Definition str (v : value) : string :=
  match v with
  | VNone => "None"
  | VFalse => "False"
  | VStr s => s
  end.

(** [x in l] and [x not in l] for a list of values *)
Definition val_in (x : value) (l : list value) : bool :=
  existsb (value_eqb x) l.

(** An HTTP response: the status and the header dictionary. *)
Record Response : Type := {
  status : Z;
  resp_headers : list (string * string)
}.

(** [resp.get(k, None)] *)
Fixpoint header (k : string) (h : list (string * string)) : option string :=
  match h with
  | [] => None
  | (k', v) :: t => if k' =? k then Some v else header k t
  end.

(** The second operand of an [assert], which becomes the argument of the
    [AssertionError]. *)
Inductive assert_arg : Type :=
| NoArg
| ArgStr (s : string)
| ArgNames (names : list string)
| ArgResp (r : Response).

(** Exceptions.  [Raised cls is_value_error msg] is an exception of a
    library's own class, with whether the class derives from
    [ValueError]. *)
Inductive exn : Type :=
| ValueError (msg : string)
| AssertionError (arg : assert_arg)
| AttributeError (msg : string)
| TypeError (msg : string)
| KeyError (key : string)
| IndexError (msg : string)
| UnicodeDecodeError (msg : string)
| BadZipFile (msg : string)
| Raised (cls : string) (is_value_error : bool) (msg : string).

(** What [except ValueError as e] catches, with [str(e)]. *)
Definition as_ValueError (e : exn) : option string :=
  match e with
  | ValueError msg => Some msg
  | UnicodeDecodeError msg => Some msg
  | Raised _ true msg => Some msg
  | _ => None
  end.

Inductive Result (A : Type) : Type :=
| Ok (a : A)
| Raise (e : exn).

Arguments Ok {A} a.
Arguments Raise {A} e.

Definition rbind {A B} (r : Result A) (k : A -> Result B) : Result B :=
  match r with
  | Ok a => k a
  | Raise e => Raise e
  end.

(** [assert cond, arg] *)
Definition assert_ (cond : bool) (arg : assert_arg) : Result unit :=
  if cond then Ok tt else Raise (AssertionError arg).

(** A generator that is run to its end: the items it yields, then either
    its normal end or the exception that stops it. *)
Inductive gen (A : Type) : Type :=
| Stop
| Yield (a : A) (rest : gen A)
| Throw (e : exn).

Arguments Stop {A}.
Arguments Yield {A} a rest.
Arguments Throw {A} e.

Fixpoint gen_app {A} (g1 g2 : gen A) : gen A :=
  match g1 with
  | Stop => g2
  | Yield a r => Yield a (gen_app r g2)
  | Throw e => Throw e
  end.

End Py.

Export Py.

Notation "x <~ r ;; k" := (rbind r (fun x => k))
  (at level 61, r at next level, right associativity).

(** ** [urllib]: [urlencode] *)

Module Url.

Definition hex_digit (n : nat) : ascii :=
  nth n (list_ascii_of_string "0123456789ABCDEF") "F"%char.

(** The characters [quote] never escapes: letters, digits and [_.-~]. *)
Definition always_safe (c : ascii) : bool :=
  let n := nat_of_ascii c in
  ((65 <=? n) && (n <=? 90) || (97 <=? n) && (n <=? 122)
   || (48 <=? n) && (n <=? 57))%nat
  || (c =? "_")%char || (c =? ".")%char || (c =? "-")%char || (c =? "~")%char.

(** [quote_plus] on one byte: kept, a space turned into [+], or [%XX]. *)
Definition quote_char (c : ascii) : string :=
  if always_safe c then String c ""
  else if (c =? " ")%char then "+"
  else String "%" (String (hex_digit (nat_of_ascii c / 16))
                     (String (hex_digit (nat_of_ascii c mod 16)) "")).

Fixpoint quote_plus (s : string) : string :=
  match s with
  | EmptyString => ""
  | String c t => quote_char c ++ quote_plus t
  end.

(** [urlencode(query)] for a list of (key, value) pairs *)
Definition urlencode (query : list (string * string)) : string :=
  String.concat "&"
    (map (fun kv => quote_plus (fst kv) ++ "=" ++ quote_plus (snd kv)) query).

(** The decoding of a form body, the direction the module never runs: the
    body is cut at every [&], empty pieces are skipped, each piece is cut
    at its first [=], and in both halves [+] is a space and [%XX] a byte. *)
Definition unhex (c : ascii) : option nat :=
  let n := nat_of_ascii c in
  if ((48 <=? n) && (n <=? 57))%nat then Some (n - 48)
  else if ((65 <=? n) && (n <=? 70))%nat then Some (n - 55)
  else if ((97 <=? n) && (n <=? 102))%nat then Some (n - 87)
  else None.

Fixpoint unquote_plus (s : string) : string :=
  match s with
  | EmptyString => ""
  | String c t =>
      if (c =? "+")%char then String " " (unquote_plus t)
      else if (c =? "%")%char then
        match t with
        | String a (String b u) =>
            match unhex a, unhex b with
            | Some x, Some y => String (ascii_of_nat (16 * x + y)) (unquote_plus u)
            | _, _ => String c (unquote_plus t)
            end
        | _ => String c (unquote_plus t)
        end
      else String c (unquote_plus t)
  end.

Fixpoint split_on (sep : ascii) (s : string) : list string :=
  match s with
  | EmptyString => [""]
  | String c t =>
      if (c =? sep)%char then "" :: split_on sep t
      else match split_on sep t with
           | h :: r => String c h :: r
           | [] => [String c ""]
           end
  end.

(** [s.partition(sep)] without the separator *)
Fixpoint cut (sep : ascii) (s : string) : string * string :=
  match s with
  | EmptyString => ("", "")
  | String c t =>
      if (c =? sep)%char then ("", t)
      else let (a, b) := cut sep t in (String c a, b)
  end.

Definition form_decode (body : string) : list (string * string) :=
  map (fun piece => let (k, v) := cut "=" piece in
                    (unquote_plus k, unquote_plus v))
      (filter (fun piece => negb (piece =? "")) (split_on "&" body)).

End Url.

(** ** [re]: the one pattern of [CSR.__parse_pem] *)

Module Re.

Definition BEGIN_REQUEST : string := "-----BEGIN CERTIFICATE REQUEST-----".
Definition END_REQUEST : string := "-----END CERTIFICATE REQUEST-----".

(** The class [[A-Za-z0-9+/=\n\r\t ]] *)
Definition in_class (c : ascii) : bool :=
  let n := nat_of_ascii c in
  ((65 <=? n) && (n <=? 90) || (97 <=? n) && (n <=? 122)
   || (48 <=? n) && (n <=? 57))%nat
  || (c =? "+")%char || (c =? "/")%char || (c =? "=")%char
  || (n =? 10)%nat || (n =? 13)%nat || (n =? 9)%nat || (c =? " ")%char.

(** [s] without the prefix [p], when it has it *)
Fixpoint strip_prefix (p s : string) : option string :=
  match p, s with
  | EmptyString, _ => Some s
  | String a p', String b s' =>
      if (a =? b)%char then strip_prefix p' s' else None
  | String _ _, EmptyString => None
  end.

(** The longest run of class characters at the head of [s], and what
    follows it. *)
Fixpoint span_class (s : string) : string * string :=
  match s with
  | EmptyString => ("", "")
  | String c t =>
      if in_class c then let (g, r) := span_class t in (String c g, r)
      else ("", s)
  end.

(** The pattern anchored at the head of [s]: the opening line, a run of
    class characters (the group), the closing line.  The closing line
    starts with a character outside the class, so the only run that can be
    followed by it is the longest one. *)
Definition match_here (s : string) : option string :=
  match strip_prefix BEGIN_REQUEST s with
  | None => None
  | Some r =>
      let (g, r') := span_class r in
      if prefix END_REQUEST r' then Some g else None
  end.

(** [re.search(pattern, s)], then [group(1)]: the leftmost match. *)
Fixpoint search (s : string) : option string :=
  match match_here s with
  | Some g => Some g
  | None =>
      match s with
      | EmptyString => None
      | String _ t => search t
      end
  end.

End Re.

(** ** [zipfile] *)

Module Zip.

#[local] Set Warnings "-register-all".

(** A [bytes] value together with what [zipfile.ZipFile] reads from it:
    [Raw s] is not a zip archive; [Archive s ms] is the archive with the
    members [ms], in the order of its directory, each with its name, its
    content and whether its content passes the CRC check. *)
Inductive bytes : Type :=
| Raw (s : string)
| Archive (s : string) (members : list (string * bytes * bool)).

Definition raw (b : bytes) : string :=
  match b with
  | Raw s => s
  | Archive s _ => s
  end.

Definition ZipFile : Type := list (string * bytes * bool).

(** [zipfile.ZipFile(io.BytesIO(b), "r")] *)
Definition open (b : bytes) : Result ZipFile :=
  match b with
  | Raw _ => Raise (BadZipFile "File is not a zip file")
  | Archive _ ms => Ok ms
  end.

Definition namelist (zf : ZipFile) : list string :=
  map (fun m => fst (fst m)) zf.

(** [zf.testzip()]: the name of the first member with a bad CRC *)
Fixpoint testzip (zf : ZipFile) : option string :=
  match zf with
  | [] => None
  | (n, _, ok) :: t => if ok then testzip t else Some n
  end.

(** The member a name stands for: the last one of that name. *)
Fixpoint getinfo (name : string) (zf : ZipFile) : option (bytes * bool) :=
  match zf with
  | [] => None
  | (n, d, ok) :: t =>
      match getinfo name t with
      | Some m => Some m
      | None => if n =? name then Some (d, ok) else None
      end
  end.

(** [zf.read(name)] *)
Definition read (zf : ZipFile) (name : string) : Result bytes :=
  match getinfo name zf with
  | None => Raise (KeyError name)
  | Some (d, true) => Ok d
  | Some (_, false) => Raise (BadZipFile "Bad CRC-32")
  end.

(** [zf.read(name).decode("ascii")] *)
Definition read_ascii (zf : ZipFile) (name : string) : Result string :=
  d <~ read zf name ;;
  if is_ascii (raw d) then Ok (raw d)
  else Raise (UnicodeDecodeError "'ascii' codec can't decode byte").

End Zip.

Export Zip (bytes, Raw, Archive, raw).

(** ** ASN.1 values, as far as the module reads them *)

Module Asn1.

Definition OID : Type := list N.

Definition oid_eqb (a b : OID) : bool :=
  if list_eq_dec N.eq_dec a b then true else false.

Definition id_PKCS9_extensionRequest : OID := [1; 2; 840; 113549; 1; 9; 14]%N.
Definition id_at_commonName : OID := [2; 5; 4; 3]%N.
Definition id_ce_subjectAltName : OID := [2; 5; 29; 17]%N.

(** [AttributeTypeAndValue]; the value is an undecoded [Any]. *)
Record AttributeTypeAndValue : Type := {
  atv_type : OID;
  atv_value : string
}.

(** [Attribute] of the request info: [type] and [vals] *)
Record Attribute : Type := {
  attr_type : OID;
  attr_vals : list string
}.

Record Extension : Type := {
  extnID : OID;
  extnValue : string
}.

(** A [GeneralName] choice: [getName()] and [str(getComponent())] *)
Record GeneralName : Type := {
  getName : string;
  getComponent : string
}.

(** [subject] is the RDN sequence, [subject[0]] of the [Name] choice. *)
Record CertificationRequestInfo : Type := {
  subject : list (list AttributeTypeAndValue);
  attributes : list Attribute
}.

Record CertificationRequest : Type := {
  certificationRequestInfo : CertificationRequestInfo
}.

End Asn1.

Export Asn1.

(** ** The libraries behind the module *)

Record Request : Type := {
  uri : string;
  method : string;
  headers : list (string * string);
  body : option string
}.

(** What the module needs of httplib2, uuid, json, base64, pyasn1 and the
    interpreter.  [World] is the state outside the process: the
    connection, the server and the entropy pool. *)
Class Platform : Type := {
  World : Type;
  (** [Http.request]: the response and the content *)
  h_request : Request -> World -> Result (Response * bytes) * World;
  (** [Http.add_certificate(key, cert, '')] *)
  h_add_certificate : string -> string -> World -> World;
  (** [str(uuid.uuid4())] *)
  uuid4 : World -> string * World;
  (** [bytes.decode('utf-8')] *)
  utf8_decode : string -> Result string;
  (** [item[field]] for the items of [json.loads(content.decode())], in
      order, up to the exception that stops the loop, when one does *)
  json_column : string -> string -> list string * option exn;
  b64decode : string -> Result string;
  (** [pyasn1.codec.der.decoder.decode] at each [asn1Spec] in use *)
  der_CertificationRequest : string -> Result CertificationRequest;
  der_DirectoryString : string -> Result string;
  der_Extensions : string -> Result (list Extension);
  der_OctetString : string -> Result string;
  der_SubjectAltName : string -> Result (list GeneralName);
  (** [str(l)] for a list of names *)
  str_names : list string -> string;
  (** [traceback.format_exc()] *)
  format_exc : exn -> string
}.

Section StartSSL.

Context {P : Platform}.

(** ** class CSR *)

(** An open file: [f.name] and [f.read()] *)
Record file : Type := {
  name : string;
  read : string
}.

(** The argument of [CSR(...)]: a string, or an object with [read]. *)
Inductive pem_arg : Type :=
| OfString (s : string)
| OfFile (f : file).

Record CSR : Type := {
  pem : string;
  asn1 : CertificationRequest
}.

(** [CSR.__parse_pem] *)
Definition parse_pem (pem : string) : Result CertificationRequest :=
  match Re.search pem with
  | None => Raise (ValueError "Not a valid PEM CSR")
  | Some csr_b64 =>
      csr_bin <~ b64decode csr_b64 ;;
      der_CertificationRequest csr_bin
  end.

(** [CSR.__init__] *)
Definition CSR_init (pem_csr : pem_arg) : Result CSR :=
  let pem_csr := match pem_csr with
                 | OfString s => s
                 | OfFile f => read f
                 end in
  a <~ parse_pem pem_csr ;;
  Ok {| pem := pem_csr; asn1 := a |}.

Definition get_pem (csr : CSR) : string := pem csr.

(** The loop of [get_common_name] over the RDN sequence; falling off its
    end returns [None]. *)
Fixpoint common_name_of (rdns : list (list AttributeTypeAndValue))
  : Result value :=
  match rdns with
  | [] => Ok VNone
  | rdn :: rest =>
      match rdn with
      | [] => Raise (IndexError "index out of range")
      | name :: _ =>
          if oid_eqb (atv_type name) id_at_commonName then
            v <~ der_DirectoryString (atv_value name) ;;
            Ok (VStr v)
          else common_name_of rest
      end
  end.

Definition get_common_name (csr : CSR) : Result value :=
  common_name_of (subject (certificationRequestInfo (asn1 csr))).

(** [types and subject_alt_name_type not in types]: [None] and the empty
    list are both false. *)
Definition unwanted (types : option (list string)) (t : string) : bool :=
  match types with
  | None => false
  | Some [] => false
  | Some l => negb (str_in t l)
  end.

(** The innermost loop of [get_subject_alt_names]. *)
Fixpoint yield_names (types : option (list string)) (names : list GeneralName)
  : gen (string * string) :=
  match names with
  | [] => Stop
  | general_name :: rest =>
      if unwanted types (getName general_name) then yield_names types rest
      else Yield (getName general_name, getComponent general_name)
                 (yield_names types rest)
  end.

(** The loop over the extensions of one extension request. *)
Fixpoint yield_extensions (types : option (list string))
  (extensions : list Extension) : gen (string * string) :=
  match extensions with
  | [] => Stop
  | extension :: rest =>
      if negb (oid_eqb (extnID extension) id_ce_subjectAltName) then
        yield_extensions types rest
      else
        match der_OctetString (extnValue extension) with
        | Raise e => Throw e
        | Ok subject_alt_names_raw =>
            match der_SubjectAltName subject_alt_names_raw with
            | Raise e => Throw e
            | Ok subject_alt_names =>
                gen_app (yield_names types subject_alt_names)
                        (yield_extensions types rest)
            end
        end
  end.

(** The loop over the attributes of the request info. *)
Fixpoint yield_attributes (types : option (list string))
  (attrs : list Attribute) : gen (string * string) :=
  match attrs with
  | [] => Stop
  | a :: rest =>
      if negb (oid_eqb (attr_type a) id_PKCS9_extensionRequest) then
        yield_attributes types rest
      else
        match attr_vals a with
        | [] => Throw (IndexError "index out of range")
        | v0 :: _ =>
            match der_Extensions v0 with
            | Raise e => Throw e
            | Ok extensions =>
                gen_app (yield_extensions types extensions)
                        (yield_attributes types rest)
            end
        end
  end.

Definition get_subject_alt_names (csr : CSR) (types : option (list string))
  : gen (string * string) :=
  yield_attributes types (attributes (certificationRequestInfo (asn1 csr))).

(** ** class API *)

Definition STARTSSL_BASEURI : string := "https://startssl.com".
Definition STARTSSL_AUTHURI : string := "https://auth.startssl.com".
Definition STARTSSL_GETDOMAINSURI : string :=
  "https://startssl.com/ControlPanel/AjaxRequestGetAllDomainValis".
Definition STARTSSL_GETEMAILSURI : string :=
  "https://startssl.com/ControlPanel/AjaxRequestGetAllEmailValis".
Definition STARTSSL_SUBMITCSR : string := "https://startssl.com/Certificates/ssl".
Definition CERTIFICATE_PROFILES : list string := ["smime"; "server"; "xmpp"; "code"].

(** The fields of [self], without the [Http] object, which is in the
    [World]. *)
Record API : Type := {
  user_agent : option string;
  validated_emails : option (list string);
  validated_domains : option (list string);
  authenticated : bool;
  cookies : option string
}.

Record State : Type := {
  self : API;
  world : World
}.

(** [API.__init__] *)
Definition API_init (user_agent : option string) : API :=
  {| user_agent := user_agent;
     validated_emails := None;
     validated_domains := None;
     authenticated := false;
     cookies := None |}.

(** A method: it may change the state, and ends with a value or an
    exception; the state changes done before an exception stay. *)
Definition M (A : Type) : Type := State -> Result A * State.

Definition ret {A} (a : A) : M A := fun st => (Ok a, st).

Definition bind {A B} (m : M A) (k : A -> M B) : M B :=
  fun st =>
    match m st with
    | (Ok a, st') => k a st'
    | (Raise e, st') => (Raise e, st')
    end.

Definition lift {A} (r : Result A) : M A := fun st => (r, st).

Definition set_self (f : API -> API) : M unit :=
  fun st => (Ok tt, {| self := f (self st); world := world st |}).

Notation "x <- m ;; k" := (bind m (fun x => k))
  (at level 61, m at next level, right associativity).

(** [resp[k]] *)
Definition getitem (resp : Response) (k : string) : Result string :=
  match header k (resp_headers resp) with
  | Some v => Ok v
  | None => Raise (KeyError k)
  end.

(** [if s:] for a field that is [None] or a string *)
Definition nonempty (s : option string) : list string :=
  match s with
  | None => []
  | Some v => if v =? "" then [] else [v]
  end.

(** [API.__request]: the header dictionary starts empty at every call
    site, so [Content-Type] is never set before the test for it. *)
Definition request_ (uri method : string)
  (body : option (list (string * string))) : M (Response * bytes) :=
  fun st =>
    let headers :=
      (map (fun v => ("User-Agent", v)) (nonempty (user_agent (self st)))
       ++ map (fun v => ("Cookie", v)) (nonempty (cookies (self st)))
       ++ (if method =? "POST"
           then [("Content-Type", "application/x-www-form-urlencoded")]
           else []))%list in
    let req := {| uri := uri; method := method; headers := headers;
                  body := option_map Url.urlencode body |} in
    match h_request req (world st) with
    | (Raise e, w) => (Raise e, {| self := self st; world := w |})
    | (Ok (resp, content), w) =>
        let st' := {| self := self st; world := w |} in
        match header "content-type" (resp_headers resp) with
        | Some ct =>
            if ct =? "text/html; charset=utf-8" then
              match utf8_decode (raw content) with
              | Ok text => (Ok (resp, Raw text), st')
              | Raise e => (Raise e, st')
              end
            else (Ok (resp, content), st')
        | None => (Ok (resp, content), st')
        end
    end.

(** [API.authenticate] *)
Definition authenticate (cert key : string) : M bool :=
  _ <- (fun st => (Ok tt, {| self := self st;
                             world := h_add_certificate key cert (world st) |})) ;;
  rc <- request_ STARTSSL_AUTHURI "GET" None ;;
  let resp := fst rc in
  _ <- lift (assert_ (status resp =? 302)%Z (ArgResp resp)) ;;
  location <- lift (getitem resp "location") ;;
  _ <- lift (assert_ (startswith location "https://Startssl.com/ControlPanel")
                     (ArgResp resp)) ;;
  _ <- lift (assert_ (match header "set-cookie" (resp_headers resp) with
                      | Some _ => true
                      | None => false
                      end) (ArgResp resp)) ;;
  cookie <- lift (getitem resp "set-cookie") ;;
  _ <- lift (assert_ (startswith cookie "MyStartSSLCookie=") (ArgStr cookie)) ;;
  _ <- set_self (fun a => {| user_agent := user_agent a;
                             validated_emails := validated_emails a;
                             validated_domains := validated_domains a;
                             authenticated := authenticated a;
                             cookies := Some cookie |}) ;;
  _ <- set_self (fun a => {| user_agent := user_agent a;
                             validated_emails := validated_emails a;
                             validated_domains := validated_domains a;
                             authenticated := true;
                             cookies := cookies a |}) ;;
  fun st => (Ok (authenticated (self st)), st).

Definition set_validated_emails (l : list string) : M unit :=
  set_self (fun a => {| user_agent := user_agent a;
                        validated_emails := Some l;
                        validated_domains := validated_domains a;
                        authenticated := authenticated a;
                        cookies := cookies a |}).

Definition set_validated_domains (l : list string) : M unit :=
  set_self (fun a => {| user_agent := user_agent a;
                        validated_emails := validated_emails a;
                        validated_domains := Some l;
                        authenticated := authenticated a;
                        cookies := cookies a |}).

(** One of the two fetches of [get_validated_resources]: the request with
    a fresh cache key, the status check, and the loop that appends every
    record's [field] to the list [store] has just set to [[]].  The list
    keeps what was appended before an exception. *)
Definition fetch_column (base field : string) (store : list string -> M unit)
  : M (list string) :=
  key <- (fun st => let (k, w) := uuid4 (world st) in
                    (Ok k, {| self := self st; world := w |})) ;;
  rc <- request_ (base ++ "?cacheKey=" ++ key) "GET" (Some [("app", "12")]) ;;
  _ <- lift (assert_ (status (fst rc) =? 200)%Z NoArg) ;;
  let (items, stopped) := json_column field (raw (snd rc)) in
  _ <- store items ;;
  match stopped with
  | Some e => lift (Raise e)
  | None => ret items
  end.

(** [API.get_validated_resources]; the second component of the pair is
    [self.validated_domains]. *)
Definition get_validated_resources (force_update : bool)
  : M (list string * list string) :=
  fun st =>
    if negb (authenticated (self st)) then
      (Raise (AssertionError (ArgStr "not authenticated")), st)
    else
      match validated_emails (self st), validated_domains (self st),
            force_update with
      | Some emails, Some domains, false => (Ok (emails, domains), st)
      | _, _, _ =>
          (_ <- set_validated_emails [] ;;
           _ <- set_validated_domains [] ;;
           domains <- fetch_column STARTSSL_GETDOMAINSURI "Domain"
                                   set_validated_domains ;;
           emails <- fetch_column STARTSSL_GETEMAILSURI "Email"
                                  set_validated_emails ;;
           ret (emails, domains)) st
      end.

(** The loop of [is_validated_domain] over [self.validated_domains]:
    [domain.endswith] exists on strings only. *)
Fixpoint first_covering (domain : value) (validated : list string)
  : Result value :=
  match validated with
  | [] => Ok VFalse
  | validated_domain :: rest =>
      match domain with
      | VStr d =>
          if endswith d validated_domain then Ok (VStr validated_domain)
          else first_covering domain rest
      | _ => Raise (AttributeError "object has no attribute 'endswith'")
      end
  end.

(** [API.is_validated_domain] *)
Definition is_validated_domain (domain : value) : M value :=
  _ <- get_validated_resources false ;;
  fun st =>
    match validated_domains (self st) with
    | Some validated => (first_covering domain validated, st)
    | None => (Raise (TypeError "'NoneType' object is not iterable"), st)
    end.

(** [API.get_certificate_zip] *)
Definition get_certificate_zip (certificate_id : value) : M (string * bytes) :=
  rc <- request_ (STARTSSL_BASEURI ++ "/CertList/DownLoadCert?orderId="
                  ++ str certificate_id) "GET" None ;;
  let (resp, content) := rc in
  _ <- lift (assert_ (status resp =? 200)%Z (ArgResp resp)) ;;
  ct <- lift (getitem resp "content-type") ;;
  _ <- lift (assert_ (ct =? "application/octet-stream") (ArgResp resp)) ;;
  cd <- lift (getitem resp "content-disposition") ;;
  _ <- lift (assert_ (startswith cd "attachment; filename=") (ArgResp resp)) ;;
  ret (from (String.length "attachment; filename=") cd, content).

Definition BEGIN_CERTIFICATE : string := "-----BEGIN CERTIFICATE-----".
Definition END_CERTIFICATE : string := "-----END CERTIFICATE-----".
Definition intermediate_filename : string := "1_Intermediate.crt".

(** The server layout of [get_certificate]: the certificate and the
    intermediate certificate out of the nested archive. *)
Definition read_server (zf_main : Zip.ZipFile) (basename : string)
  : Result (string * string) :=
  inner <~ Zip.read zf_main "OtherServer.zip" ;;
  zf_server <~ Zip.open inner ;;
  let server_filename := "2_" ++ basename ++ ".crt" in
  let names := Zip.namelist zf_server in
  _ <~ assert_ (List.length names =? 3)%nat (ArgNames names) ;;
  _ <~ assert_ (str_in intermediate_filename names) (ArgNames names) ;;
  _ <~ assert_ (str_in server_filename names) (ArgNames names) ;;
  intermediate_cert <~ Zip.read_ascii zf_server intermediate_filename ;;
  cert <~ Zip.read_ascii zf_server server_filename ;;
  Ok (cert, intermediate_cert).

(** The client and object layout: two members, the second is the
    certificate. *)
Definition read_client (zf_main : Zip.ZipFile) : Result (string * string) :=
  let names := Zip.namelist zf_main in
  let cert_filename := nth 1 names "" in
  _ <~ assert_ (negb (intermediate_filename =? cert_filename)) (ArgNames names) ;;
  _ <~ assert_ (str_in intermediate_filename names) (ArgNames names) ;;
  _ <~ assert_ (str_in cert_filename names) (ArgNames names) ;;
  intermediate_cert <~ Zip.read_ascii zf_main intermediate_filename ;;
  cert <~ Zip.read_ascii zf_main cert_filename ;;
  Ok (cert, intermediate_cert).

(** [get_certificate] from the pair [get_certificate_zip] returned on: the
    part the specification calls [extract]. *)
Definition extract (attachment_filename : string) (zip_file : bytes)
  : Result (string * string * string) :=
  _ <~ assert_ (last4 attachment_filename =? ".zip") (ArgStr attachment_filename) ;;
  let basename := drop_last4 attachment_filename in
  zf_main <~ Zip.open zip_file ;;
  _ <~ assert_ (match Zip.testzip zf_main with
                | None => true
                | Some _ => false
                end) (ArgStr "invalid zip file") ;;
  pair <~ (if str_in "OtherServer.zip" (Zip.namelist zf_main) then
             read_server zf_main basename
           else if (List.length (Zip.namelist zf_main) =? 2)%nat then
             read_client zf_main
           else Raise (ValueError ("unexpected zip content: "
                                   ++ str_names (Zip.namelist zf_main)))) ;;
  let (cert, intermediate_cert) := pair in
  _ <~ assert_ (contains BEGIN_CERTIFICATE intermediate_cert)
               (ArgStr "no BEGIN CERTIFICATE") ;;
  _ <~ assert_ (contains END_CERTIFICATE intermediate_cert)
               (ArgStr "no END CERTIFICATE") ;;
  _ <~ assert_ (contains BEGIN_CERTIFICATE cert) (ArgStr "no BEGIN CERTIFICATE") ;;
  _ <~ assert_ (contains END_CERTIFICATE cert) (ArgStr "no END CERTIFICATE") ;;
  Ok (basename, cert, intermediate_cert).

(** [API.get_certificate] *)
Definition get_certificate (certificate_id : value)
  : M (string * string * string) :=
  z <- get_certificate_zip certificate_id ;;
  lift (extract (fst z) (snd z)).

(** *** [API.submit_certificate_request] *)

(** Lines 428 to 431: the subjects start as the common name; the loop
    over the generator appends every value not yet in the list. *)
Fixpoint append_new (subjects : list value) (g : gen (string * string))
  : Result (list value) :=
  match g with
  | Stop => Ok subjects
  | Yield tv rest =>
      let v := VStr (snd tv) in
      append_new (if val_in v subjects then subjects
                  else (subjects ++ [v])%list) rest
  | Throw e => Raise e
  end.

Definition collect_subjects (csr : CSR) : Result (list value) :=
  csr_cn <~ get_common_name csr ;;
  append_new [csr_cn] (get_subject_alt_names csr (Some ["dNSName"])).

(** The three locals of the coverage loop. *)
Record SubjectPlan : Type := {
  subjects_direct : list value;
  subjects_subdomain : list value;
  validated_domain_first : value
}.

(** Lines 438 to 449. *)
Fixpoint cover_subjects (subjects : list value) (p : SubjectPlan)
  : M SubjectPlan :=
  match subjects with
  | [] => ret p
  | subject :: rest =>
      validated_domain <- is_validated_domain subject ;;
      if truthy validated_domain then
        cover_subjects rest
          {| subjects_direct :=
               if negb (val_in validated_domain (subjects_direct p))
               then (subjects_direct p ++ [validated_domain])%list
               else subjects_direct p;
             subjects_subdomain :=
               if negb (value_eqb subject validated_domain)
               then (subjects_subdomain p ++ [subject])%list
               else subjects_subdomain p;
             validated_domain_first :=
               if negb (truthy (validated_domain_first p))
               then validated_domain
               else validated_domain_first p |}
      else
        lift (Raise (ValueError ("Missing domain validations for "
                                 ++ str subject ++ ".")))
  end.

(** Lines 433 to 451: the plan for a list of subjects. *)
Definition plan (subjects : list value) : M SubjectPlan :=
  _ <- lift (assert_ (0 <? List.length subjects)%nat
                     (ArgStr "no subjects found")) ;;
  p <- cover_subjects subjects
         {| subjects_direct := [];
            subjects_subdomain := [];
            validated_domain_first := VNone |} ;;
  _ <- lift (assert_ (0 <? List.length (subjects_direct p))%nat
                     (ArgStr "no direct subjects identified.")) ;;
  ret p.

(** ["".join(subjects)] *)
Fixpoint join_values (l : list value) : Result string :=
  match l with
  | [] => Ok ""
  | VStr s :: t => r <~ join_values t ;; Ok (s ++ r)
  | _ :: _ => Raise (TypeError "sequence item: expected str instance")
  end.

(** Line 454: the form of the submission. *)
Definition submit_body (subjects : list value) (csr_pem : string)
  : Result (list (string * string)) :=
  domains <~ join_values subjects ;;
  Ok [("domains", domains); ("rbcsr", "scsr"); ("areaCSR", csr_pem);
      ("hidchekcer", "1"); ("__EVENTTARGET", "btnSubmit")].

Definition submit_certificate_request (profile : string) (csr : CSR) : M unit :=
  _ <- lift (assert_ (str_in profile CERTIFICATE_PROFILES)
                     (ArgStr "unknown profile")) ;;
  _ <- get_validated_resources false ;;
  if str_in profile ["server"; "xmpp"] then
    subjects <- lift (collect_subjects csr) ;;
    _ <- plan subjects ;;
    body <- lift (submit_body subjects (get_pem csr)) ;;
    rc <- request_ STARTSSL_SUBMITCSR "POST" (Some body) ;;
    _ <- lift (assert_ (status (fst rc) =? 302)%Z
                       (ArgStr "CSR req is not redirecting")) ;;
    location <- lift (getitem (fst rc) "location") ;;
    rc2 <- request_ (STARTSSL_BASEURI ++ location) "GET" None ;;
    _ <- lift (assert_ (status (fst rc2) =? 200)%Z
                       (ArgStr "second_step_certs bad status")) ;;
    ret tt
  else ret tt.

(** ** The [csr] sub-command *)

(** What the command prints, on standard output and on standard error. *)
Inductive printed : Type :=
| Stdout (line : string)
| Stderr (text : string).

(** The two [except] clauses of the loop. *)
Definition report (e : exn) : list printed :=
  match as_ValueError e with
  | Some msg => [Stdout ("Submission failed: " ++ msg)]
  | None => [Stdout "Submission failed:"; Stderr (format_exc e)]
  end.

(** The body of the loop for one file. *)
Definition submit_file (profile : string) (csr_file : file)
  : State -> list printed * State :=
  fun st =>
    let announced := Stdout ("Submitting " ++ name csr_file) in
    match CSR_init (OfFile csr_file) with
    | Raise e => (announced :: report e, st)
    | Ok csr =>
        match submit_certificate_request profile csr st with
        | (Ok _, st') => ([announced; Stdout "Submission successful;"], st')
        | (Raise e, st') => (announced :: report e, st')
        end
    end.

(** [for csr_file in args.csr_files: ...] *)
Fixpoint main_csr (profile : string) (csr_files : list file)
  : State -> list printed * State :=
  fun st =>
    match csr_files with
    | [] => ([], st)
    | csr_file :: rest =>
        let (out, st') := submit_file profile csr_file st in
        let (out', st'') := main_csr profile rest st' in
        ((out ++ out')%list, st'')
    end.

End StartSSL.

Notation "x <- m ;; k" := (bind m (fun x => k))
  (at level 61, m at next level, right associativity).

(** ** The vocabulary of the specification *)

Module Spec.

(** [d] is a literal suffix of [n]. *)
Definition is_suffix (d n : string) : Prop := exists p, n = p ++ d.

(** Some validated domain covers the name. *)
Definition covered (validated : list string) (n : string) : Prop :=
  exists d, In d validated /\ is_suffix d n.

(** A sequence with every value kept at its first appearance and its later
    duplicates dropped. *)
Fixpoint first_appearance (l : list value) : list value :=
  match l with
  | [] => []
  | x :: t => x :: filter (fun y => negb (value_eqb y x)) (first_appearance t)
  end.

(** The items of a generator that ends normally. *)
Fixpoint gen_run {A} (g : gen A) : Result (list A) :=
  match g with
  | Stop => Ok []
  | Yield a r => l <~ gen_run r ;; Ok (a :: l)
  | Throw e => Raise e
  end.

Fixpoint gen_of_list {A} (l : list A) : gen A :=
  match l with
  | [] => Stop
  | a :: t => Yield a (gen_of_list t)
  end.

(** The generator with the items that pass [keep], stopped by the same
    exception. *)
Fixpoint gen_filter {A} (keep : A -> bool) (g : gen A) : gen A :=
  match g with
  | Stop => Stop
  | Yield a r => if keep a then Yield a (gen_filter keep r) else gen_filter keep r
  | Throw e => Throw e
  end.

(** An entry of type [dNSName]. *)
Definition is_dNSName (tv : string * string) : bool := fst tv =? "dNSName".

(** A text in which the delimited block of a PEM request occurs: the
    opening line, base64 and white space only, the closing line. *)
Definition has_request_block (text : string) : Prop :=
  exists before payload after,
    forallb Re.in_class (list_ascii_of_string payload) = true
    /\ text = before ++ Re.BEGIN_REQUEST ++ payload ++ Re.END_REQUEST ++ after.

(** A member name made of a number, an underscore, the common name and
    the suffix [.crt]. *)
Definition numbered_leaf (common_name member : string) : bool :=
  let (number, rest) := Url.cut "_" member in
  negb (number =? "")
  && forallb (fun c => (48 <=? nat_of_ascii c) && (nat_of_ascii c <=? 57))%nat
             (list_ascii_of_string number)
  && (rest =? common_name ++ ".crt").

(** The server shape as the specification words it: exactly three
    members, the intermediate certificate and two numbered leaves. *)
Definition server_shape (common_name : string) (members : list string) : bool :=
  (List.length members =? 3)%nat
  && str_in "1_Intermediate.crt" members
  && (List.length (filter (numbered_leaf common_name) members) =? 2)%nat.

(** A text with the two delimiter lines of a certificate. *)
Definition has_certificate_markers (text : string) : bool :=
  contains "-----BEGIN CERTIFICATE-----" text
  && contains "-----END CERTIFICATE-----" text.

(** The failures of the extractor that are about the content of a member:
    it is not ASCII, or a delimiter line is missing. *)
Definition format_failure (e : exn) : bool :=
  match e with
  | AssertionError (ArgStr m) =>
      (m =? "no BEGIN CERTIFICATE") || (m =? "no END CERTIFICATE")
  | UnicodeDecodeError _ => true
  | _ => false
  end.

End Spec.

Export Spec.

(** The general names of a request read eagerly, in the words of the
    specification: every extension request among the attributes is
    decoded as extensions, and every subject alternative name extension
    among these as general names, in the order of the encoding. *)
Section EagerNames.

Context {P : Platform}.

Fixpoint names_of_extensions (extensions : list Extension)
  : Result (list GeneralName) :=
  match extensions with
  | [] => Ok []
  | x :: rest =>
      if oid_eqb (extnID x) id_ce_subjectAltName then
        octets <~ der_OctetString (extnValue x) ;;
        names <~ der_SubjectAltName octets ;;
        more <~ names_of_extensions rest ;;
        Ok (names ++ more)%list
      else names_of_extensions rest
  end.

Fixpoint names_of_attributes (attrs : list Attribute)
  : Result (list GeneralName) :=
  match attrs with
  | [] => Ok []
  | a :: rest =>
      if oid_eqb (attr_type a) id_PKCS9_extensionRequest then
        match attr_vals a with
        | [] => Raise (IndexError "index out of range")
        | v0 :: _ =>
            extensions <~ der_Extensions v0 ;;
            names <~ names_of_extensions extensions ;;
            more <~ names_of_attributes rest ;;
            Ok (names ++ more)%list
        end
      else names_of_attributes rest
  end.

Definition all_general_names (csr : CSR) : Result (list GeneralName) :=
  names_of_attributes (attributes (certificationRequestInfo (asn1 csr))).

End EagerNames.

(** ** A scripted platform

    A platform for running the module without a network: the world is the
    list of the responses still to come; the decoders read a plain text
    notation in place of DER (a request is its common name, a list of
    names is separated by commas). *)

Module Scripted.

Definition request (r : Request) (script : list (Response * bytes))
  : Result (Response * bytes) * list (Response * bytes) :=
  match script with
  | [] => (Raise (Raised "httplib2.ServerNotFoundError" false "no response"), [])
  | x :: rest => (Ok x, rest)
  end.

Definition certification_request (der : string) : Result CertificationRequest :=
  if der =? "" then
    Raise (Raised "pyasn1.error.SubstrateUnderrunError" false "Short octet stream")
  else
    Ok {| certificationRequestInfo :=
            {| subject := [[{| atv_type := id_at_commonName; atv_value := der |}]];
               attributes := [] |} |}.

(** White space in the payload is dropped, as [b64decode] does. *)
Definition payload_bytes (payload : string) : Result string :=
  Ok (string_of_list_ascii
        (filter (fun c => negb ((nat_of_ascii c =? 10) || (nat_of_ascii c =? 13)
                                || (nat_of_ascii c =? 9)
                                || (nat_of_ascii c =? 32))%nat)
                (list_ascii_of_string payload))).

Definition general_names (text : string) : Result (list GeneralName) :=
  Ok (map (fun n => {| getName := "dNSName"; getComponent := n |})
          (Url.split_on "," text)).

#[export] Instance platform : Platform := {|
  World := list (Response * bytes);
  h_request := request;
  h_add_certificate := fun _ _ w => w;
  uuid4 := fun w => ("00000000-0000-4000-8000-000000000000", w);
  utf8_decode := fun s => Ok s;
  json_column := fun _ content => (Url.split_on "," content, None);
  b64decode := payload_bytes;
  der_CertificationRequest := certification_request;
  der_DirectoryString := fun s => Ok s;
  der_Extensions := fun s =>
    Ok [{| extnID := id_ce_subjectAltName; extnValue := s |}];
  der_OctetString := fun s => Ok s;
  der_SubjectAltName := general_names;
  str_names := fun l => "[" ++ String.concat ", " l ++ "]";
  format_exc := fun _ => "Traceback (most recent call last):"
|}.

(** A session that is authenticated and has fetched its validations. *)
Definition session (domains : list string) : @State platform :=
  {| self := {| user_agent := None;
                validated_emails := Some [];
                validated_domains := Some domains;
                authenticated := true;
                cookies := Some "MyStartSSLCookie=1" |};
     world := [] |}.

(** A request for [cn] with one extension request naming [sans]. *)
Definition request_for (cn sans : string) : CSR :=
  {| pem := "";
     asn1 := {| certificationRequestInfo :=
                  {| subject := [[{| atv_type := id_at_commonName;
                                     atv_value := cn |}]];
                     attributes := [{| attr_type := id_PKCS9_extensionRequest;
                                       attr_vals := [sans] |}] |} |} |}.

Definition leaf_pem : string :=
  "-----BEGIN CERTIFICATE-----
MIIBleaf
-----END CERTIFICATE-----
".

Definition intermediate_pem : string :=
  "-----BEGIN CERTIFICATE-----
MIIBintermediate
-----END CERTIFICATE-----
".

(** A server bundle: the nested archive has the intermediate certificate,
    the certificate and the root certificate. *)
Definition server_bundle : bytes :=
  Archive "PK"
    [("OtherServer.zip",
      Archive "PK"
        [("1_Intermediate.crt", Raw intermediate_pem, true);
         ("2_foo.crt", Raw leaf_pem, true);
         ("root.crt", Raw intermediate_pem, true)],
      true)].

Definition not_a_request : file :=
  {| name := "notes.txt"; read := "no request here" |}.

Definition truncated_request : file :=
  {| name := "empty.csr";
     read := "-----BEGIN CERTIFICATE REQUEST-----
-----END CERTIFICATE REQUEST-----
" |}.

End Scripted.

(** ** Auxiliary notions of the proofs *)

Section Auxiliary.

Context {P : Platform}.

(** The session has fetched its validated resources. *)
Definition settled (st : State) (domains : list string) : Prop :=
  exists emails,
    validated_emails (self st) = Some emails
    /\ validated_domains (self st) = Some domains
    /\ authenticated (self st) = true.

Definition entry (g : GeneralName) : string * string :=
  (getName g, getComponent g).

(** What a filter lets through. *)
Definition wanted (types : option (list string)) (tv : string * string) : bool :=
  negb (unwanted types (fst tv)).

(** No character of [s] is [sep]. *)
Fixpoint lacks (sep : ascii) (s : string) : bool :=
  match s with
  | EmptyString => true
  | String c t => negb (c =? sep)%char && lacks sep t
  end.

(** One [key=value] piece of an encoded body. *)
Definition piece (kv : string * string) : string :=
  Url.quote_plus (fst kv) ++ "=" ++ Url.quote_plus (snd kv).

(** The choice of the layout in [extract], and the checks that follow
    it. *)
Definition layout (zf_main : Zip.ZipFile) (basename : string)
  : Result (string * string) :=
  if str_in "OtherServer.zip" (Zip.namelist zf_main) then
    read_server zf_main basename
  else if (List.length (Zip.namelist zf_main) =? 2)%nat then
    read_client zf_main
  else Raise (ValueError ("unexpected zip content: "
                          ++ str_names (Zip.namelist zf_main))).

Definition check_markers (basename : string) (pair : string * string)
  : Result (string * string * string) :=
  let (cert, intermediate_cert) := pair in
  _ <~ assert_ (contains BEGIN_CERTIFICATE intermediate_cert)
               (ArgStr "no BEGIN CERTIFICATE") ;;
  _ <~ assert_ (contains END_CERTIFICATE intermediate_cert)
               (ArgStr "no END CERTIFICATE") ;;
  _ <~ assert_ (contains BEGIN_CERTIFICATE cert) (ArgStr "no BEGIN CERTIFICATE") ;;
  _ <~ assert_ (contains END_CERTIFICATE cert) (ArgStr "no END CERTIFICATE") ;;
  Ok (basename, cert, intermediate_cert).

(** Every character of [s] is in the class of the pattern. *)
Definition all_in_class (s : string) : bool :=
  forallb Re.in_class (list_ascii_of_string s).

(** The text the constructor of [CSR] parses. *)
Definition text_of (arg : pem_arg) : string :=
  match arg with
  | OfString s => s
  | OfFile f => read f
  end.

(** The request [__request] hands to the transport. *)
Definition request_sent (uri method : string)
  (body : option (list (string * string))) (a : API) : Request :=
  {| uri := uri; method := method;
     headers :=
       (map (fun v => ("User-Agent", v)) (nonempty (user_agent a))
        ++ map (fun v => ("Cookie", v)) (nonempty (cookies a))
        ++ (if method =? "POST"
            then [("Content-Type", "application/x-www-form-urlencoded")]
            else []))%list;
     body := option_map Url.urlencode body |}.

(** The characters of an encoded form: the unreserved ones and [%+&=]. *)
Definition form_char (c : ascii) : bool :=
  Url.always_safe c || (c =? "%")%char || (c =? "+")%char
  || (c =? "&")%char || (c =? "=")%char.

(** The first attribute of the RDN is not a common name. *)
Definition not_common_name (rdn : list AttributeTypeAndValue) : Prop :=
  exists a more, rdn = a :: more /\ oid_eqb (atv_type a) id_at_commonName = false.

(** A line that announces a file. *)
Definition is_announcement (p : printed) : bool :=
  match p with
  | Stdout line => prefix "Submitting " line
  | Stderr _ => false
  end.

End Auxiliary.

(** ** More runs on the scripted platform *)

Module Cases.

(** A session before [authenticate], with the responses to come. *)
Definition fresh (script : list (Response * bytes))
  : @State Scripted.platform :=
  @Build_State Scripted.platform (API_init None) script.

(** A session after [authenticate] that has not fetched its validated
    resources yet. *)
Definition logged_in (script : list (Response * bytes))
  : @State Scripted.platform :=
  @Build_State Scripted.platform
    {| user_agent := None;
       validated_emails := None;
       validated_domains := None;
       authenticated := true;
       cookies := Some "MyStartSSLCookie=1" |}
    script.

(** A session that holds its validated resources. *)
Definition fetched (emails domains : list string)
  (cookie : string) (script : list (Response * bytes))
  : @State Scripted.platform :=
  @Build_State Scripted.platform
    {| user_agent := None;
       validated_emails := Some emails;
       validated_domains := Some domains;
       authenticated := true;
       cookies := Some cookie |}
    script.

Definition ok_json (content : string) : Response * bytes :=
  ({| status := 200; resp_headers := [("content-type", "application/json")] |},
   Raw content).

Definition redirect_to_panel : Response * bytes :=
  ({| status := 302;
      resp_headers := [("location", "https://Startssl.com/ControlPanel/");
                       ("set-cookie", "MyStartSSLCookie=abc")] |},
   Raw "").

Definition download (filename : string) (content : bytes) : Response * bytes :=
  ({| status := 200;
      resp_headers := [("content-type", "application/octet-stream");
                       ("content-disposition",
                        "attachment; filename=" ++ filename)] |},
   content).

(** A request whose only attribute is a challenge password. *)
Definition plain_request (cn : string) : CSR :=
  {| pem := "";
     asn1 := {| certificationRequestInfo :=
                  {| subject := [[{| atv_type := id_at_commonName;
                                     atv_value := cn |}]];
                     attributes := [{| attr_type := [1; 2; 840; 113549; 1; 9; 7]%N;
                                       attr_vals := ["secret"] |}] |} |} |}.

(** A request whose subject has a country before the common name. *)
Definition located_request (cn : string) : CSR :=
  {| pem := "";
     asn1 := {| certificationRequestInfo :=
                  {| subject := [[{| atv_type := [2; 5; 4; 6]%N;
                                     atv_value := "DE" |}];
                                 [{| atv_type := id_at_commonName;
                                     atv_value := cn |}]];
                     attributes := [] |} |} |}.

(** A request whose subject has an organization and no common name, with
    one extension request naming [sans]. *)
Definition anonymous_request (sans : string) : CSR :=
  {| pem := "";
     asn1 := {| certificationRequestInfo :=
                  {| subject := [[{| atv_type := [2; 5; 4; 10]%N;
                                     atv_value := "Example" |}]];
                     attributes := [{| attr_type := id_PKCS9_extensionRequest;
                                       attr_vals := [sans] |}] |} |} |}.

Definition request_text : string :=
  "subject: example.com
-----BEGIN CERTIFICATE REQUEST-----
ZXhhbXBsZQ==
-----END CERTIFICATE REQUEST-----
".

Definition client_bundle : bytes :=
  Archive "PK"
    [("1_Intermediate.crt", Raw Scripted.intermediate_pem, true);
     ("2_foo.crt", Raw Scripted.leaf_pem, true)].

End Cases.

(** * Properties *)

(** ** Strings *)

Section StringFacts.

Lemma append_empty_r (s : string) : s ++ "" = s.
Proof. induction s as [|c s IH]; simpl; [reflexivity | now rewrite IH]. Qed.

Lemma append_assoc (a b c : string) : (a ++ b) ++ c = a ++ b ++ c.
Proof. induction a as [|x a IH]; simpl; [reflexivity | now rewrite IH]. Qed.

Lemma length_append (a b : string) :
  String.length (a ++ b) = String.length a + String.length b.
Proof. induction a as [|x a IH]; simpl; [reflexivity | now rewrite IH]. Qed.

Lemma substring_all (s : string) : substring 0 (String.length s) s = s.
Proof. induction s as [|c s IH]; simpl; [reflexivity | now rewrite IH]. Qed.

Lemma substring_skip (p s : string) :
  substring (String.length p) (String.length s) (p ++ s) = s.
Proof. induction p as [|c p IH]; simpl; [apply substring_all | exact IH]. Qed.

Lemma substring_take (p s : string) :
  substring 0 (String.length p) (p ++ s) = p.
Proof.
  induction p as [|c p IH]; simpl.
  - destruct s; reflexivity.
  - now rewrite IH.
Qed.

Lemma substring_split (s : string) : forall n,
  n <= String.length s ->
  substring 0 n s ++ substring n (String.length s - n) s = s.
Proof.
  induction s as [|c s IH]; intros [|n] Hn; simpl in *; try reflexivity.
  - now rewrite substring_all.
  - f_equal. apply IH. lia.
Qed.

Lemma endswith_spec (s suffix : string) :
  endswith s suffix = true <-> is_suffix suffix s.
Proof.
  unfold endswith, is_suffix. split.
  - intros H. apply andb_true_iff in H as [Hlen Heq].
    apply Nat.leb_le in Hlen. apply String.eqb_eq in Heq.
    set (n := String.length s - String.length suffix) in *.
    exists (substring 0 n s).
    rewrite <- (substring_split s n) at 1 by (unfold n; lia).
    f_equal.
    replace (String.length s - n) with (String.length suffix)
      by (unfold n; lia).
    exact Heq.
  - intros [p ->]. apply andb_true_iff. split.
    + apply Nat.leb_le. rewrite length_append. lia.
    + apply String.eqb_eq. rewrite length_append.
      replace (String.length p + String.length suffix - String.length suffix)
        with (String.length p) by lia.
      apply substring_skip.
Qed.

Lemma endswith_false (s suffix : string) :
  endswith s suffix = false <-> ~ is_suffix suffix s.
Proof.
  rewrite <- endswith_spec. destruct (endswith s suffix); intuition congruence.
Qed.

Lemma empty_is_suffix (s : string) : is_suffix "" s.
Proof. exists s. now rewrite append_empty_r. Qed.

Lemma last4_zip (base : string) : last4 (base ++ ".zip") = ".zip".
Proof.
  unfold last4. rewrite length_append. simpl String.length.
  replace (String.length base + 4 - 4) with (String.length base) by lia.
  apply (substring_skip base ".zip").
Qed.

Lemma drop_last4_zip (base : string) : drop_last4 (base ++ ".zip") = base.
Proof.
  unfold drop_last4. rewrite length_append. simpl String.length.
  replace (String.length base + 4 - 4) with (String.length base) by lia.
  apply substring_take.
Qed.

Lemma str_in_In (x : string) (l : list string) : str_in x l = true <-> In x l.
Proof.
  unfold str_in. rewrite existsb_exists. split.
  - intros (y & Hy & E). apply String.eqb_eq in E. now subst.
  - intros H. exists x. split; [assumption | apply String.eqb_refl].
Qed.

Lemma str_in_not_In (x : string) (l : list string) :
  str_in x l = false <-> ~ In x l.
Proof.
  rewrite <- str_in_In. destruct (str_in x l); intuition congruence.
Qed.

Lemma value_eqb_eq (a b : value) : value_eqb a b = true <-> a = b.
Proof.
  destruct a, b; simpl; try (split; congruence).
  rewrite String.eqb_eq. split; congruence.
Qed.

Lemma value_eqb_refl (a : value) : value_eqb a a = true.
Proof. now apply value_eqb_eq. Qed.

Lemma val_in_In (x : value) (l : list value) : val_in x l = true <-> In x l.
Proof.
  unfold val_in. rewrite existsb_exists. split.
  - intros (y & Hy & E). apply value_eqb_eq in E. now subst.
  - intros H. exists x. split; [assumption | apply value_eqb_refl].
Qed.

End StringFacts.

(** ** The validated resources and the domain check *)

Section Validation.

Context {P : Platform}.

Lemma bind_ok {A B} (m : M A) (k : A -> M B) st a st' :
  m st = (Ok a, st') -> bind m k st = k a st'.
Proof. unfold bind. now intros ->. Qed.

Lemma bind_raise {A B} (m : M A) (k : A -> M B) st e st' :
  m st = (Raise e, st') -> bind m k st = (Raise e, st').
Proof. unfold bind. now intros ->. Qed.

Lemma bind_inv {A B} (m : M A) (k : A -> M B) st b st2 :
  bind m k st = (Ok b, st2) ->
  exists a st1, m st = (Ok a, st1) /\ k a st1 = (Ok b, st2).
Proof.
  unfold bind. destruct (m st) as [[a|e] st1]; intros H.
  - now exists a, st1.
  - discriminate.
Qed.

(** A request leaves [self] as it is. *)
Lemma request_self uri method body st r st' :
  request_ uri method body st = (r, st') -> self st' = self st.
Proof.
  unfold request_.
  destruct (h_request _ (world st)) as [[[resp content]|e] w].
  - destruct (header "content-type" (resp_headers resp)) as [ct|].
    + destruct (ct =? "text/html; charset=utf-8").
      * destruct (utf8_decode (raw content)); intros H; inversion H; reflexivity.
      * intros H; inversion H; reflexivity.
    + intros H; inversion H; reflexivity.
  - intros H; inversion H; reflexivity.
Qed.

(** A fetch that returns has stored what it returns. *)
Lemma fetch_column_ok base field store items st st' :
  fetch_column base field store st = (Ok items, st') ->
  exists st0, self st0 = self st /\ store items st0 = (Ok tt, st').
Proof.
  unfold fetch_column. intros H.
  apply bind_inv in H as (key & s1 & H1 & H).
  apply bind_inv in H as (rc & s2 & H2 & H).
  apply bind_inv in H as (u & s3 & H3 & H).
  destruct (json_column field (raw (snd rc))) as [its stopped].
  apply bind_inv in H as (u' & s4 & H4 & H).
  destruct (uuid4 (world st)) as [k w] eqn:Ek.
  inversion H1; subst key s1; clear H1.
  apply request_self in H2. simpl in H2.
  unfold lift in H3. inversion H3; subst s3; clear H3.
  destruct stopped as [e|]; unfold lift, ret in H; inversion H; subst.
  exists s2. destruct u'. split; assumption.
Qed.

Lemma get_validated_resources_stored st emails domains st1 :
  get_validated_resources false st = (Ok (emails, domains), st1) ->
  validated_emails (self st1) = Some emails
  /\ validated_domains (self st1) = Some domains
  /\ authenticated (self st1) = true.
Proof.
  unfold get_validated_resources.
  destruct (authenticated (self st)) eqn:Ha; simpl; [|discriminate].
  assert (Hfetch :
    (_ <- set_validated_emails [] ;;
     _ <- set_validated_domains [] ;;
     domains <- fetch_column STARTSSL_GETDOMAINSURI "Domain"
                             set_validated_domains ;;
     emails <- fetch_column STARTSSL_GETEMAILSURI "Email"
                            set_validated_emails ;;
     ret (emails, domains)) st = (Ok (emails, domains), st1) ->
    validated_emails (self st1) = Some emails
    /\ validated_domains (self st1) = Some domains
    /\ authenticated (self st1) = true).
  { intros H.
    apply bind_inv in H as (u1 & s1 & H1 & H).
    apply bind_inv in H as (u2 & s2 & H2 & H).
    apply bind_inv in H as (ds & s3 & H3 & H).
    apply bind_inv in H as (es & s4 & H4 & H).
    unfold ret in H. inversion H; subst es ds s4; clear H.
    unfold set_validated_emails, set_self in H1. inversion H1; subst; clear H1.
    unfold set_validated_domains, set_self in H2. inversion H2; subst; clear H2.
    apply fetch_column_ok in H3 as (s0 & E0 & H3).
    apply fetch_column_ok in H4 as (s0' & E0' & H4).
    unfold set_validated_domains, set_self in H3. inversion H3; subst; clear H3.
    unfold set_validated_emails, set_self in H4. inversion H4; subst; clear H4.
    simpl in *. rewrite E0'. simpl. rewrite E0. simpl. auto. }
  destruct (validated_emails (self st)) as [es|] eqn:He;
    [destruct (validated_domains (self st)) as [ds|] eqn:Hd|]; try exact Hfetch.
  intros H. inversion H; subst. auto.
Qed.

(** With the lists in place the call returns them and changes nothing. *)
Lemma get_validated_resources_again st emails domains :
  validated_emails (self st) = Some emails ->
  validated_domains (self st) = Some domains ->
  authenticated (self st) = true ->
  get_validated_resources false st = (Ok (emails, domains), st).
Proof.
  intros He Hd Ha. unfold get_validated_resources.
  now rewrite Ha, He, Hd.
Qed.

Lemma is_validated_domain_run domain st emails domains st1 :
  get_validated_resources false st = (Ok (emails, domains), st1) ->
  is_validated_domain domain st = (first_covering domain domains, st1).
Proof.
  intros H. unfold is_validated_domain.
  rewrite (bind_ok _ _ _ _ _ H).
  apply get_validated_resources_stored in H as (_ & -> & _). reflexivity.
Qed.

Lemma first_covering_total n validated :
  exists r, first_covering (VStr n) validated = Ok r.
Proof.
  induction validated as [|d l IH]; simpl.
  - now exists VFalse.
  - destruct (endswith n d); [now exists (VStr d) | exact IH].
Qed.

Lemma first_covering_found n validated d :
  first_covering (VStr n) validated = Ok (VStr d) <->
  exists l1 l2, validated = (l1 ++ d :: l2)%list /\ is_suffix d n
                /\ forall x, In x l1 -> ~ is_suffix x n.
Proof.
  induction validated as [|y l IH]; simpl.
  - split; [discriminate | intros ([|? ?] & l2 & E & _); discriminate].
  - destruct (endswith n y) eqn:Ey.
    + split.
      * intros H. inversion H; subst y. exists [], l.
        repeat split; [now apply endswith_spec | intros x []].
      * intros (l1 & l2 & E & Hd & Hl1). destruct l1 as [|z l1]; simpl in E.
        -- now inversion E.
        -- inversion E; subst z l. exfalso.
           apply (Hl1 y); [now left | now apply endswith_spec].
    + rewrite IH. apply endswith_false in Ey. split.
      * intros (l1 & l2 & E & Hd & Hl1). exists (y :: l1), l2. subst l.
        repeat split; [assumption|]. intros x [<-|Hx]; auto.
      * intros (l1 & l2 & E & Hd & Hl1). destruct l1 as [|z l1]; simpl in E.
        -- inversion E; subst y l. contradiction.
        -- inversion E; subst z l. exists l1, l2.
           repeat split; [assumption|]. intros x Hx. apply Hl1. now right.
Qed.

Lemma first_covering_none n validated :
  first_covering (VStr n) validated = Ok VFalse <->
  forall d, In d validated -> ~ is_suffix d n.
Proof.
  induction validated as [|y l IH]; simpl.
  - split; [intros _ d [] | reflexivity].
  - destruct (endswith n y) eqn:Ey.
    + split; [discriminate|]. intros H. exfalso.
      apply (H y); [now left | now apply endswith_spec].
    + rewrite IH. apply endswith_false in Ey. split.
      * intros H d [<-|Hd]; auto.
      * intros H d Hd. apply H. now right.
Qed.

(** C1. Once the validated resources are there, [is_validated_domain]
    returns, for a name [n], the first validated domain (in the order of
    the list) that is a literal suffix of [n], whatever precedes the
    suffix in [n], and [False] exactly when no validated domain is a
    suffix of [n]; the state is the one the resources were fetched in. *)
Theorem is_validated_domain_first_suffix st emails domains st1 n :
  get_validated_resources false st = (Ok (emails, domains), st1) ->
  exists r,
    is_validated_domain (VStr n) st = (Ok r, st1)
    /\ (forall d, r = VStr d <->
          exists l1 l2, domains = (l1 ++ d :: l2)%list /\ is_suffix d n
                        /\ forall x, In x l1 -> ~ is_suffix x n)
    /\ (r = VFalse <-> forall d, In d domains -> ~ is_suffix d n).
Proof.
  intros H. rewrite (is_validated_domain_run _ _ _ _ _ H).
  destruct (first_covering_total n domains) as [r Hr].
  exists r. rewrite Hr. split; [reflexivity|]. split.
  - intros d. rewrite <- first_covering_found, Hr. split; congruence.
  - rewrite <- first_covering_none, Hr. split; congruence.
Qed.

End Validation.

(** The coarse case of the suffix policy: [evilexample.com] is covered by
    the validated [example.com]. *)
Lemma is_validated_domain_first_suffix_witness :
  is_validated_domain (VStr "evilexample.com")
    (Scripted.session ["startssl.org"; "example.com"; "com"])
  = (Ok (VStr "example.com"),
     Scripted.session ["startssl.org"; "example.com"; "com"]).
Proof.
  destruct (is_validated_domain_first_suffix
              (Scripted.session ["startssl.org"; "example.com"; "com"])
              [] ["startssl.org"; "example.com"; "com"]
              (Scripted.session ["startssl.org"; "example.com"; "com"])
              "evilexample.com" eq_refl) as (r & Hrun & Hfound & _).
  rewrite Hrun. f_equal. f_equal. apply Hfound.
  exists ["startssl.org"], ["com"]. split; [reflexivity|]. split.
  - now exists "evil".
  - intros x [<-|[]]. apply endswith_false. reflexivity.
Defined.

(** ** The subject planner *)

Section Planner.

Context {P : Platform}.

Lemma settled_after st emails domains st1 :
  get_validated_resources false st = (Ok (emails, domains), st1) ->
  settled st1 domains.
Proof.
  intros H. exists emails.
  exact (get_validated_resources_stored _ _ _ _ H).
Qed.

Lemma is_validated_domain_settled st domains v :
  settled st domains ->
  is_validated_domain v st = (first_covering v domains, st).
Proof.
  intros (emails & He & Hd & Ha).
  apply (is_validated_domain_run v st emails).
  now apply get_validated_resources_again.
Qed.

Lemma first_covering_shape n validated r :
  first_covering (VStr n) validated = Ok r ->
  r = VFalse \/ exists d, r = VStr d /\ In d validated /\ is_suffix d n.
Proof.
  induction validated as [|y l IH]; simpl.
  - intros H. inversion H. now left.
  - destruct (endswith n y) eqn:Ey.
    + intros H. inversion H. right. exists y.
      repeat split; [now left | now apply endswith_spec].
    + intros H. destruct (IH H) as [->|(d & -> & Hin & Hs)]; [now left|].
      right. exists d. repeat split; [now right | assumption].
Qed.

(** A covered name gets a validated domain from the list. *)
Lemma first_covering_covered n validated :
  covered validated n ->
  exists d, first_covering (VStr n) validated = Ok (VStr d) /\ In d validated.
Proof.
  intros (d0 & Hin0 & Hs0).
  destruct (first_covering_total n validated) as [r Hr].
  destruct (first_covering_shape _ _ _ Hr) as [->|(d & -> & Hin & _)].
  - exfalso. apply (proj1 (first_covering_none n validated) Hr d0); assumption.
  - now exists d.
Qed.

Lemma first_covering_uncovered n validated :
  ~ covered validated n -> first_covering (VStr n) validated = Ok VFalse.
Proof.
  intros H. apply first_covering_none. intros d Hin Hs.
  apply H. now exists d.
Qed.

(** The coverage loop stops at the first name that is not covered, with
    the state untouched, whatever follows that name. *)
Lemma cover_subjects_uncovered st domains pre s post :
  settled st domains ->
  (forall x, In x pre -> covered domains x) ->
  ~ covered domains s ->
  forall p,
    cover_subjects (map VStr pre ++ VStr s :: post)%list p st
    = (Raise (ValueError ("Missing domain validations for " ++ s ++ ".")), st).
Proof.
  intros Hst Hpre Hs.
  assert (Hne : forall d, In d domains -> d <> "").
  { intros d Hin ->. apply Hs. exists "". split;
      [assumption | apply empty_is_suffix]. }
  induction pre as [|x pre IH]; intros p; simpl.
  - rewrite (bind_ok _ _ st VFalse st).
    + reflexivity.
    + rewrite (is_validated_domain_settled st domains _ Hst).
      now rewrite first_covering_uncovered.
  - destruct (first_covering_covered x domains) as (d & Hd & Hin).
    { apply Hpre. now left. }
    rewrite (bind_ok _ _ st (VStr d) st).
    + apply Hne in Hin. apply String.eqb_neq in Hin.
      unfold truthy. rewrite Hin. simpl negb. cbv iota.
      apply IH. intros y Hy. apply Hpre. now right.
    + rewrite (is_validated_domain_settled st domains _ Hst). now rewrite Hd.
Qed.

(** The loop leaves [subjects_direct] with an element as soon as it has
    gone through one subject. *)
Lemma cover_subjects_direct subjects : forall p st p' st',
  cover_subjects subjects p st = (Ok p', st') ->
  subjects <> [] \/ subjects_direct p <> [] ->
  subjects_direct p' <> [].
Proof.
  induction subjects as [|subject rest IH]; intros p st p' st' H Hne.
  - simpl in H. unfold ret in H. inversion H; subst.
    destruct Hne as [Hne|Hne]; [now elim Hne | assumption].
  - simpl in H. apply bind_inv in H as (v & s1 & Hv & H).
    destruct (truthy v); [|discriminate].
    apply IH in H; [assumption|]. right. simpl.
    destruct (val_in v (subjects_direct p)) eqn:Ein; simpl.
    + intros E. rewrite E in Ein. discriminate.
    + intros E. now apply app_eq_nil in E as [_ E].
Qed.

(** C8. A plan is never built from an empty list of subjects: the first
    assertion fails with "no subjects found".  For a list that is not
    empty the coverage loop, when it ends, has put a validated domain in
    [subjects_direct]; so every plan that [plan] returns comes from a list
    with a subject in it and has a direct domain. *)
Theorem plan_postcondition subjects st :
  (subjects = [] ->
   plan subjects st = (Raise (AssertionError (ArgStr "no subjects found")), st))
  /\ (forall p0 p st',
        subjects <> [] ->
        cover_subjects subjects p0 st = (Ok p, st') ->
        subjects_direct p <> [])
  /\ (forall p st',
        plan subjects st = (Ok p, st') ->
        subjects <> [] /\ subjects_direct p <> []).
Proof.
  split; [|split].
  - intros ->. reflexivity.
  - intros p0 p st' Hne H. apply (cover_subjects_direct _ _ _ _ _ H). now left.
  - intros p st' H. unfold plan in H.
    destruct subjects as [|subject rest]; [discriminate|].
    split; [discriminate|].
    apply bind_inv in H as (u & s1 & H1 & H).
    unfold lift in H1. simpl in H1. inversion H1; subst s1; clear H1.
    apply bind_inv in H as (q & s2 & Hloop & H).
    apply bind_inv in H as (u' & s3 & Hassert & H).
    unfold ret in H. inversion H; subst q s3.
    apply (cover_subjects_direct _ _ _ _ _ Hloop). left. discriminate.
Qed.

(** The plan for a list with a name that is not covered. *)
Lemma plan_uncovered st domains pre s post :
  settled st domains ->
  (forall x, In x pre -> covered domains x) ->
  ~ covered domains s ->
  plan (map VStr pre ++ VStr s :: post)%list st
  = (Raise (ValueError ("Missing domain validations for " ++ s ++ ".")), st).
Proof.
  intros Hst Hpre Hs. unfold plan.
  rewrite (bind_ok _ _ st tt st).
  - apply bind_raise. now apply (cover_subjects_uncovered st domains).
  - unfold lift. f_equal. rewrite length_app. simpl.
    replace (0 <? _)%nat with true; [reflexivity|].
    symmetry. apply Nat.ltb_lt. lia.
Qed.

(** X21. When the subjects of a request are names (strings) up to and
    including the first one that no validated domain covers, the
    submission fails with the [ValueError] that names that subject,
    whatever comes after it in the list; no plan is returned, and the
    state is the one the validated resources were fetched in: no request
    of the submission has been sent, its body has not been built. *)
Theorem submit_uncovered_subject profile csr st emails domains st1 pre s post :
  profile = "server" \/ profile = "xmpp" ->
  get_validated_resources false st = (Ok (emails, domains), st1) ->
  collect_subjects csr = Ok (map VStr pre ++ VStr s :: post)%list ->
  (forall x, In x pre -> covered domains x) ->
  ~ covered domains s ->
  submit_certificate_request profile csr st
  = (Raise (ValueError ("Missing domain validations for " ++ s ++ ".")), st1)
  /\ plan (map VStr pre ++ VStr s :: post)%list st1
     = (Raise (ValueError ("Missing domain validations for " ++ s ++ ".")), st1).
Proof.
  intros Hp Hv Hc Hpre Hs.
  assert (Hplan := plan_uncovered st1 domains pre s post
                     (settled_after _ _ _ _ Hv) Hpre Hs).
  split; [|exact Hplan].
  unfold submit_certificate_request.
  rewrite (bind_ok _ _ st tt st)
    by (destruct Hp as [->| ->]; reflexivity).
  rewrite (bind_ok _ _ _ _ _ Hv).
  replace (str_in profile ["server"; "xmpp"]) with true
    by (destruct Hp as [->| ->]; reflexivity).
  rewrite (bind_ok _ _ st1 (map VStr pre ++ VStr s :: post)%list st1)
    by (unfold lift; now rewrite Hc).
  now apply bind_raise.
Qed.

End Planner.

(** A list found empty raises before any look-up; [www.example.com] gets
    the direct domain [example.com]. *)
Lemma plan_postcondition_witness :
  plan [] (Scripted.session ["example.com"])
  = (Raise (AssertionError (ArgStr "no subjects found")),
     Scripted.session ["example.com"])
  /\ [VStr "www.example.com"] <> []
  /\ subjects_direct
       {| subjects_direct := [VStr "example.com"];
          subjects_subdomain := [VStr "www.example.com"];
          validated_domain_first := VStr "example.com" |} <> [].
Proof.
  destruct (plan_postcondition [] (Scripted.session ["example.com"]))
    as (Hempty & _ & _).
  destruct (plan_postcondition [VStr "www.example.com"]
              (Scripted.session ["example.com"])) as (_ & _ & Hplan).
  split; [exact (Hempty eq_refl) | exact (Hplan _ _ eq_refl)].
Defined.

(** The request for [example.com], [www.example.com] and [example.org]
    with only [example.com] validated fails on [example.org]. *)
Lemma submit_uncovered_subject_witness :
  submit_certificate_request "server"
    (Scripted.request_for "example.com" "www.example.com,example.org,a.example.com")
    (Scripted.session ["example.com"])
  = (Raise (ValueError "Missing domain validations for example.org."),
     Scripted.session ["example.com"]).
Proof.
  refine (proj1 (submit_uncovered_subject "server"
            (Scripted.request_for "example.com"
               "www.example.com,example.org,a.example.com")
            (Scripted.session ["example.com"]) [] ["example.com"]
            (Scripted.session ["example.com"])
            ["example.com"; "www.example.com"] "example.org"
            [VStr "a.example.com"]
            (or_introl eq_refl) eq_refl eq_refl _ _)).
  - intros x [<-|[<-|[]]]; exists "example.com"; (split; [now left|]).
    + now exists "".
    + now exists "www.".
  - intros (d & [<-|[]] & Hd). now apply endswith_spec in Hd.
Defined.

(** ** The subject alternative names and the subjects *)

Section Names.

Context {P : Platform}.

Lemma gen_filter_app {A} (keep : A -> bool) (g1 g2 : gen A) :
  gen_filter keep (gen_app g1 g2)
  = gen_app (gen_filter keep g1) (gen_filter keep g2).
Proof.
  induction g1 as [|a r IH|e]; simpl; try reflexivity.
  destruct (keep a); simpl; now rewrite IH.
Qed.

Lemma gen_filter_all {A} (keep : A -> bool) (g : gen A) :
  (forall a, keep a = true) -> gen_filter keep g = g.
Proof.
  intros H. induction g as [|a r IH|e]; simpl; try reflexivity.
  now rewrite H, IH.
Qed.

Lemma gen_filter_ext {A} (f k : A -> bool) (g : gen A) :
  (forall a, f a = k a) -> gen_filter f g = gen_filter k g.
Proof.
  intros H. induction g as [|a r IH|e]; simpl; try reflexivity.
  now rewrite H, IH.
Qed.

Lemma gen_app_of_list {A} (l1 l2 : list A) :
  gen_app (gen_of_list l1) (gen_of_list l2) = gen_of_list (l1 ++ l2)%list.
Proof. induction l1 as [|a l1 IH]; simpl; [reflexivity | now rewrite IH]. Qed.

Lemma gen_run_of_list {A} (l : list A) : gen_run (gen_of_list l) = Ok l.
Proof. induction l as [|a l IH]; simpl; [reflexivity | now rewrite IH]. Qed.

Lemma gen_run_filter {A} (keep : A -> bool) (g : gen A) : forall l,
  gen_run g = Ok l -> gen_run (gen_filter keep g) = Ok (filter keep l).
Proof.
  induction g as [|a r IH|e]; simpl; intros l H.
  - now inversion H.
  - destruct (gen_run r) as [l'|e] eqn:Er; simpl in H; [|discriminate].
    inversion H; subst l. simpl.
    destruct (keep a); simpl; now rewrite (IH l' eq_refl).
  - discriminate.
Qed.

Lemma yield_names_filter types names :
  yield_names types names = gen_filter (wanted types) (yield_names None names).
Proof.
  induction names as [|g names IH]; simpl; [reflexivity|].
  unfold wanted at 1. simpl fst.
  destruct (unwanted types (getName g)); simpl; now rewrite IH.
Qed.

Lemma yield_extensions_filter types extensions :
  yield_extensions types extensions
  = gen_filter (wanted types) (yield_extensions None extensions).
Proof.
  induction extensions as [|x rest IH]; simpl; [reflexivity|].
  destruct (oid_eqb (extnID x) id_ce_subjectAltName); simpl; [|exact IH].
  destruct (der_OctetString (extnValue x)) as [octets|e]; [|reflexivity].
  destruct (der_SubjectAltName octets) as [names|e]; [|reflexivity].
  now rewrite gen_filter_app, <- yield_names_filter, IH.
Qed.

Lemma yield_attributes_filter types attrs :
  yield_attributes types attrs
  = gen_filter (wanted types) (yield_attributes None attrs).
Proof.
  induction attrs as [|a rest IH]; simpl; [reflexivity|].
  destruct (oid_eqb (attr_type a) id_PKCS9_extensionRequest); simpl; [|exact IH].
  destruct (attr_vals a) as [|v0 vs]; [reflexivity|].
  destruct (der_Extensions v0) as [extensions|e]; [|reflexivity].
  now rewrite gen_filter_app, <- yield_extensions_filter, IH.
Qed.

(** A filter only removes items from what the call without a filter
    yields; it neither reorders them nor changes where an exception
    stops the sequence. *)
Lemma get_subject_alt_names_filter csr types :
  get_subject_alt_names csr types
  = gen_filter (wanted types) (get_subject_alt_names csr None).
Proof. apply yield_attributes_filter. Qed.

Lemma yield_names_all names :
  yield_names None names = gen_of_list (map entry names).
Proof. induction names as [|g names IH]; simpl; [reflexivity | now rewrite IH]. Qed.

Lemma yield_extensions_all extensions : forall names,
  names_of_extensions extensions = Ok names ->
  yield_extensions None extensions = gen_of_list (map entry names).
Proof.
  induction extensions as [|x rest IH]; simpl; intros names H.
  - now inversion H.
  - destruct (oid_eqb (extnID x) id_ce_subjectAltName); simpl; [|now apply IH].
    destruct (der_OctetString (extnValue x)) as [octets|e];
      simpl in H; [|discriminate].
    destruct (der_SubjectAltName octets) as [ns|e]; simpl in H; [|discriminate].
    destruct (names_of_extensions rest) as [more|e]; simpl in H; [|discriminate].
    inversion H; subst names.
    now rewrite yield_names_all, (IH more eq_refl), gen_app_of_list, map_app.
Qed.

Lemma yield_attributes_all attrs : forall names,
  names_of_attributes attrs = Ok names ->
  yield_attributes None attrs = gen_of_list (map entry names).
Proof.
  induction attrs as [|a rest IH]; simpl; intros names H.
  - now inversion H.
  - destruct (oid_eqb (attr_type a) id_PKCS9_extensionRequest); simpl;
      [|now apply IH].
    destruct (attr_vals a) as [|v0 vs]; [discriminate|].
    destruct (der_Extensions v0) as [extensions|e]; simpl in H; [|discriminate].
    destruct (names_of_extensions extensions) as [ns|e] eqn:En;
      simpl in H; [|discriminate].
    destruct (names_of_attributes rest) as [more|e]; simpl in H; [|discriminate].
    inversion H; subst names.
    now rewrite (yield_extensions_all _ _ En), (IH more eq_refl),
      gen_app_of_list, map_app.
Qed.

(** C10. With the empty list as filter [get_subject_alt_names] yields
    what it yields without a filter: every general name of every subject
    alternative name extension of the request, as (type, value), in the
    order of the encoding.  Only a filter with a type in it restricts the
    output, to the entries whose type is in the filter. *)
Theorem empty_filter_is_no_filter csr :
  get_subject_alt_names csr (Some []) = get_subject_alt_names csr None
  /\ (forall names,
        all_general_names csr = Ok names ->
        get_subject_alt_names csr (Some []) = gen_of_list (map entry names))
  /\ (forall t ts,
        get_subject_alt_names csr (Some (t :: ts))
        = gen_filter (fun tv => str_in (fst tv) (t :: ts))
                     (get_subject_alt_names csr None)).
Proof.
  assert (E : get_subject_alt_names csr (Some [])
              = get_subject_alt_names csr None).
  { rewrite get_subject_alt_names_filter. now apply gen_filter_all. }
  split; [exact E|]. split.
  - intros names H. rewrite E. now apply yield_attributes_all.
  - intros t ts. rewrite get_subject_alt_names_filter.
    apply gen_filter_ext. intros tv. unfold wanted, unwanted.
    apply negb_involutive.
Qed.

(** *** The subjects *)

Lemma filter_twice {A} (f g : A -> bool) (l : list A) :
  filter f (filter g l) = filter (fun x => g x && f x) l.
Proof.
  induction l as [|a l IH]; simpl; [reflexivity|].
  destruct (g a); simpl; [destruct (f a)|]; now rewrite IH.
Qed.

Lemma first_appearance_In l v : In v (first_appearance l) <-> In v l.
Proof.
  induction l as [|x l IH]; simpl; [reflexivity|].
  rewrite filter_In, IH. split.
  - intros [H|[H _]]; auto.
  - intros [H|H]; [now left|].
    destruct (value_eqb v x) eqn:E.
    + left. symmetry. now apply value_eqb_eq.
    + right. now split.
Qed.

Lemma first_appearance_NoDup l : NoDup (first_appearance l).
Proof.
  induction l as [|x l IH]; simpl; constructor.
  - rewrite filter_In. intros [_ H]. now rewrite value_eqb_refl in H.
  - now apply NoDup_filter.
Qed.

(** The loop of lines 429 to 431, started on the list [acc]. *)
Lemma append_new_run g : forall l acc,
  gen_run g = Ok l ->
  append_new acc g
  = Ok (acc ++ filter (fun y => negb (val_in y acc))
                      (first_appearance (map (fun tv => VStr (snd tv)) l)))%list.
Proof.
  induction g as [|tv r IH|e]; simpl; intros l acc H.
  - inversion H. simpl. now rewrite app_nil_r.
  - destruct (gen_run r) as [l'|e] eqn:Er; simpl in H; [|discriminate].
    inversion H; subst l. simpl map. simpl first_appearance. simpl filter.
    rewrite filter_twice.
    destruct (val_in (VStr (snd tv)) acc) eqn:Ein; simpl.
    + rewrite (IH l' acc eq_refl). f_equal. f_equal. apply filter_ext_in.
      intros y _. destruct (value_eqb y (VStr (snd tv))) eqn:E; simpl;
        [|reflexivity].
      apply value_eqb_eq in E. subst y. now rewrite Ein.
    + rewrite (IH l' (acc ++ [VStr (snd tv)])%list eq_refl).
      rewrite <- app_assoc. simpl. f_equal. f_equal. f_equal.
      apply filter_ext. intros y. unfold val_in. rewrite existsb_app. simpl.
      destruct (value_eqb y (VStr (snd tv))), (existsb (value_eqb y) acc);
        reflexivity.
  - discriminate.
Qed.

(** C4. The subjects of a request are its common name followed by the
    values of its DNS-type subject alternative names, every value kept at
    its first appearance and dropped afterwards: the common name is first,
    no value occurs twice, and the values are those of the common name
    and the DNS-type entries. *)
Theorem subjects_first_appearance csr cn entries :
  get_common_name csr = Ok cn ->
  gen_run (get_subject_alt_names csr None) = Ok entries ->
  let dns := map (fun tv => VStr (snd tv)) (filter is_dNSName entries) in
  collect_subjects csr = Ok (first_appearance (cn :: dns))
  /\ hd_error (first_appearance (cn :: dns)) = Some cn
  /\ NoDup (first_appearance (cn :: dns))
  /\ (forall v, In v (first_appearance (cn :: dns)) <-> v = cn \/ In v dns).
Proof.
  intros Hcn Hrun dns. split; [|split; [reflexivity|split]].
  - unfold collect_subjects. rewrite Hcn. simpl rbind.
    rewrite get_subject_alt_names_filter.
    rewrite (append_new_run _ _ [cn] (gen_run_filter _ _ _ Hrun)).
    simpl. f_equal. f_equal. unfold dns.
    replace (filter (wanted (Some ["dNSName"])) entries)
      with (filter is_dNSName entries).
    + apply filter_ext. intros y. now rewrite orb_false_r.
    + apply filter_ext. intros tv. unfold wanted, is_dNSName. simpl.
      now rewrite orb_false_r, negb_involutive.
  - apply first_appearance_NoDup.
  - intros v. rewrite first_appearance_In. simpl. intuition congruence.
Qed.

End Names.

(** A request whose extension names [www.example.com] twice and repeats
    the common name. *)
Lemma empty_filter_is_no_filter_witness :
  get_subject_alt_names (P := Scripted.platform)
    (Scripted.request_for "example.com" "www.example.com,example.com")
    (Some [])
  = Yield ("dNSName", "www.example.com") (Yield ("dNSName", "example.com") Stop).
Proof.
  exact (proj1 (proj2 (empty_filter_is_no_filter (P := Scripted.platform)
           (Scripted.request_for "example.com" "www.example.com,example.com")))
           _ eq_refl).
Defined.

Lemma subjects_first_appearance_witness :
  collect_subjects (P := Scripted.platform)
    (Scripted.request_for "example.com"
       "www.example.com,example.com,www.example.com,mail.example.com")
  = Ok [VStr "example.com"; VStr "www.example.com"; VStr "mail.example.com"].
Proof.
  exact (proj1 (subjects_first_appearance (P := Scripted.platform)
           (Scripted.request_for "example.com"
              "www.example.com,example.com,www.example.com,mail.example.com")
           (VStr "example.com")
           [("dNSName", "www.example.com"); ("dNSName", "example.com");
            ("dNSName", "www.example.com"); ("dNSName", "mail.example.com")]
           eq_refl eq_refl)).
Defined.

(** ** The body of the submission *)

Section Form.

Lemma lacks_append sep a b :
  lacks sep (a ++ b) = lacks sep a && lacks sep b.
Proof.
  induction a as [|c a IH]; simpl; [reflexivity|].
  now rewrite IH, andb_assoc.
Qed.

(** An escaped byte has neither [&] nor [=] in it. *)
Lemma quote_char_lacks c :
  lacks "&" (Url.quote_char c) = true /\ lacks "=" (Url.quote_char c) = true.
Proof.
  destruct c as [[] [] [] [] [] [] [] []]; split; reflexivity.
Qed.

Lemma quote_plus_lacks s :
  lacks "&" (Url.quote_plus s) = true /\ lacks "=" (Url.quote_plus s) = true.
Proof.
  induction s as [|c s [IH1 IH2]]; simpl; [now split|].
  rewrite !lacks_append, IH1, IH2.
  destruct (quote_char_lacks c) as [-> ->]. now split.
Qed.

(** Decoding undoes the escape of one byte, whatever follows it. *)
Lemma unquote_quote_char c rest :
  Url.unquote_plus (Url.quote_char c ++ rest) = String c (Url.unquote_plus rest).
Proof.
  destruct c as [[] [] [] [] [] [] [] []]; reflexivity.
Qed.

Lemma unquote_quote_plus s : Url.unquote_plus (Url.quote_plus s) = s.
Proof.
  induction s as [|c s IH]; simpl; [reflexivity|].
  now rewrite unquote_quote_char, IH.
Qed.

Lemma split_on_whole sep s : lacks sep s = true -> Url.split_on sep s = [s].
Proof.
  induction s as [|c s IH]; simpl; [reflexivity|].
  intros H. apply andb_true_iff in H as [Hc Hs].
  apply negb_true_iff in Hc. rewrite Hc, (IH Hs). reflexivity.
Qed.

Lemma split_on_first sep a b :
  lacks sep a = true ->
  Url.split_on sep (a ++ String sep b) = a :: Url.split_on sep b.
Proof.
  induction a as [|c a IH]; simpl.
  - intros _. now rewrite Ascii.eqb_refl.
  - intros H. apply andb_true_iff in H as [Hc Ha].
    apply negb_true_iff in Hc. rewrite Hc, (IH Ha). reflexivity.
Qed.

Lemma cut_first sep a b :
  lacks sep a = true -> Url.cut sep (a ++ String sep b) = (a, b).
Proof.
  induction a as [|c a IH]; simpl.
  - intros _. now rewrite Ascii.eqb_refl.
  - intros H. apply andb_true_iff in H as [Hc Ha].
    apply negb_true_iff in Hc. rewrite Hc, (IH Ha). reflexivity.
Qed.

Lemma piece_lacks kv : lacks "&" (piece kv) = true.
Proof.
  unfold piece. rewrite !lacks_append.
  destruct (quote_plus_lacks (fst kv)) as [-> _].
  destruct (quote_plus_lacks (snd kv)) as [-> _]. reflexivity.
Qed.

Lemma piece_not_empty kv : (piece kv =? "") = false.
Proof.
  unfold piece. destruct (Url.quote_plus (fst kv)); reflexivity.
Qed.

Lemma piece_decoded k v :
  (let (a, b) := Url.cut "=" (piece (k, v)) in
   (Url.unquote_plus a, Url.unquote_plus b)) = (k, v).
Proof.
  unfold piece. simpl fst. simpl snd.
  change (Url.quote_plus k ++ "=" ++ Url.quote_plus v)
    with (Url.quote_plus k ++ String "=" (Url.quote_plus v)).
  rewrite cut_first by apply quote_plus_lacks.
  now rewrite !unquote_quote_plus.
Qed.

Lemma split_on_pieces kv l :
  Url.split_on "&" (String.concat "&" (map piece (kv :: l)))
  = map piece (kv :: l).
Proof.
  revert kv. induction l as [|kv' l IH]; intros kv.
  - simpl. apply split_on_whole, piece_lacks.
  - change (String.concat "&" (map piece (kv :: kv' :: l)))
      with (piece kv ++ String "&" (String.concat "&" (map piece (kv' :: l)))).
    rewrite split_on_first by apply piece_lacks.
    now rewrite IH.
Qed.

(** Decoding an encoded list of pairs gives the list back. *)
Lemma form_decode_urlencode query :
  Url.form_decode (Url.urlencode query) = query.
Proof.
  unfold Url.form_decode, Url.urlencode.
  change (fun kv : string * string =>
            Url.quote_plus (fst kv) ++ "=" ++ Url.quote_plus (snd kv))
    with piece.
  destruct query as [|kv l]; [reflexivity|].
  rewrite split_on_pieces.
  induction (kv :: l) as [|[k v] l' IH]; [reflexivity|].
  simpl map at 2. simpl filter. rewrite piece_not_empty. simpl negb. cbv iota.
  simpl map at 1. rewrite piece_decoded. now rewrite IH.
Qed.

Lemma join_values_strings subjects :
  join_values (map VStr subjects) = Ok (join subjects).
Proof.
  unfold join. induction subjects as [|s l IH]; [reflexivity|].
  simpl join_values. rewrite IH. simpl rbind. f_equal.
  destruct l; simpl; [now rewrite append_empty_r | reflexivity].
Qed.


End Form.

(** ** The bundle extractor *)

Section Extract.

Context {P : Platform}.

Lemma rbind_ok_inv {A B} (r : Result A) (k : A -> Result B) b :
  rbind r k = Ok b -> exists a, r = Ok a /\ k a = Ok b.
Proof. destruct r as [a|e]; simpl; [now exists a | discriminate]. Qed.

Lemma assert_ok_inv c arg u : assert_ c arg = Ok u -> c = true.
Proof. destruct c; [reflexivity | discriminate]. Qed.

Lemma assert_true c arg : c = true -> assert_ c arg = Ok tt.
Proof. now intros ->. Qed.

Lemma extract_archive fname s ms :
  last4 fname = ".zip" -> Zip.testzip ms = None ->
  extract fname (Archive s ms)
  = rbind (layout ms (drop_last4 fname)) (check_markers (drop_last4 fname)).
Proof.
  intros H1 H2. unfold extract. rewrite H1. simpl. rewrite H2. reflexivity.
Qed.

Lemma extract_ok_inv fname zip_file r :
  extract fname zip_file = Ok r ->
  exists s ms pair,
    zip_file = Archive s ms /\ last4 fname = ".zip" /\ Zip.testzip ms = None
    /\ layout ms (drop_last4 fname) = Ok pair
    /\ check_markers (drop_last4 fname) pair = Ok r.
Proof.
  unfold extract. intros H.
  apply rbind_ok_inv in H as (u1 & A1 & H). apply assert_ok_inv in A1.
  apply String.eqb_eq in A1.
  destruct zip_file as [s|s ms]; [discriminate|]. simpl in H.
  apply rbind_ok_inv in H as (u2 & A2 & H). apply assert_ok_inv in A2.
  apply rbind_ok_inv in H as (pair & L & H).
  exists s, ms, pair. repeat split; try assumption.
  now destruct (Zip.testzip ms).
Qed.

Lemma check_markers_ok basename cert inter :
  has_certificate_markers inter = true ->
  has_certificate_markers cert = true ->
  check_markers basename (cert, inter) = Ok (basename, cert, inter).
Proof.
  unfold has_certificate_markers, check_markers,
    BEGIN_CERTIFICATE, END_CERTIFICATE.
  intros Hi Hc.
  apply andb_true_iff in Hi as [-> ->].
  apply andb_true_iff in Hc as [-> ->]. reflexivity.
Qed.

Lemma check_markers_inv basename pair r :
  check_markers basename pair = Ok r ->
  has_certificate_markers (snd pair) = true
  /\ has_certificate_markers (fst pair) = true
  /\ r = (basename, fst pair, snd pair).
Proof.
  destruct pair as [cert inter].
  unfold has_certificate_markers, check_markers,
    BEGIN_CERTIFICATE, END_CERTIFICATE. simpl fst. simpl snd.
  destruct (contains "-----BEGIN CERTIFICATE-----" inter); [|discriminate].
  destruct (contains "-----END CERTIFICATE-----" inter); [|discriminate].
  destruct (contains "-----BEGIN CERTIFICATE-----" cert); [|discriminate].
  destruct (contains "-----END CERTIFICATE-----" cert); [|discriminate].
  simpl. intros H. inversion H. auto.
Qed.

(** The checks of the delimiter lines fail with a format failure. *)
Lemma check_markers_raise basename pair e :
  check_markers basename pair = Raise e -> format_failure e = true.
Proof.
  destruct pair as [cert inter]. unfold check_markers.
  destruct (contains BEGIN_CERTIFICATE inter);
    [|intros H; inversion H; reflexivity].
  destruct (contains END_CERTIFICATE inter);
    [|intros H; inversion H; reflexivity].
  destruct (contains BEGIN_CERTIFICATE cert);
    [|intros H; inversion H; reflexivity].
  destruct (contains END_CERTIFICATE cert);
    [|intros H; inversion H; reflexivity].
  discriminate.
Qed.

Lemma read_ascii_ok_inv zf name text :
  Zip.read_ascii zf name = Ok text ->
  exists d, Zip.getinfo name zf = Some (d, true)
            /\ is_ascii (raw d) = true /\ text = raw d.
Proof.
  unfold Zip.read_ascii, Zip.read.
  destruct (Zip.getinfo name zf) as [[d [|]]|]; simpl; try discriminate.
  destruct (is_ascii (raw d)) eqn:Ea; [|discriminate].
  intros H. inversion H. now exists d.
Qed.

Lemma read_ascii_ok zf name d :
  Zip.getinfo name zf = Some (d, true) -> is_ascii (raw d) = true ->
  Zip.read_ascii zf name = Ok (raw d).
Proof.
  intros Hg Ha. unfold Zip.read_ascii, Zip.read. rewrite Hg. simpl.
  now rewrite Ha.
Qed.

(** In an archive of two members a name other than the second one's is
    the first member or nothing; the second one's name is the second
    member. *)
Lemma getinfo_first name n1 d1 ok1 n2 d2 ok2 :
  n2 <> name ->
  Zip.getinfo name [(n1, d1, ok1); (n2, d2, ok2)]
  = if n1 =? name then Some (d1, ok1) else None.
Proof.
  intros H. simpl. apply String.eqb_neq in H. now rewrite H.
Qed.

Lemma getinfo_second n1 d1 ok1 n2 d2 ok2 :
  Zip.getinfo n2 [(n1, d1, ok1); (n2, d2, ok2)] = Some (d2, ok2).
Proof. simpl. now rewrite String.eqb_refl. Qed.

(** What the client layout asks of an archive of two members and what it
    reads from it. *)
Lemma read_client_two n1 d1 ok1 n2 d2 ok2 pair :
  read_client [(n1, d1, ok1); (n2, d2, ok2)] = Ok pair <->
  n1 = intermediate_filename /\ n2 <> intermediate_filename
  /\ ok1 = true /\ ok2 = true
  /\ is_ascii (raw d1) = true /\ is_ascii (raw d2) = true
  /\ pair = (raw d2, raw d1).
Proof.
  unfold read_client. simpl Zip.namelist. simpl nth.
  generalize intermediate_filename as I. intros I. split.
  - intros H.
    apply rbind_ok_inv in H as (u1 & A1 & H). apply assert_ok_inv in A1.
    apply rbind_ok_inv in H as (u2 & A2 & H). apply assert_ok_inv in A2.
    apply rbind_ok_inv in H as (u3 & A3 & H).
    apply rbind_ok_inv in H as (inter & R1 & H).
    apply rbind_ok_inv in H as (cert & R2 & H).
    apply negb_true_iff, String.eqb_neq in A1.
    apply str_in_In in A2. destruct A2 as [E|[E|[]]]; [|congruence].
    subst n1.
    apply read_ascii_ok_inv in R1 as (x1 & G1 & Ha1 & ->).
    apply read_ascii_ok_inv in R2 as (x2 & G2 & Ha2 & ->).
    rewrite getinfo_first in G1 by congruence.
    rewrite String.eqb_refl in G1. inversion G1; subst x1 ok1.
    rewrite getinfo_second in G2. inversion G2; subst x2 ok2.
    inversion H. repeat split; auto.
  - intros (-> & Hn & -> & -> & Ha1 & Ha2 & ->).
    assert (E : (I =? n2) = false) by (apply String.eqb_neq; congruence).
    unfold str_in. cbn [existsb]. rewrite E, !String.eqb_refl.
    cbn [negb orb]. rewrite orb_true_r. cbn [assert_ rbind].
    rewrite (read_ascii_ok _ I d1)
      by (try assumption; rewrite getinfo_first by assumption;
          now rewrite String.eqb_refl).
    cbn [rbind].
    rewrite (read_ascii_ok _ n2 d2)
      by (try assumption; apply getinfo_second).
    reflexivity.
Qed.

(** What the server layout asks of the nested archive and what it reads
    from it. *)
Lemma read_server_ok zf_main basename cert inter :
  read_server zf_main basename = Ok (cert, inter) <->
  exists inner zf_server,
    Zip.read zf_main "OtherServer.zip" = Ok inner
    /\ Zip.open inner = Ok zf_server
    /\ List.length (Zip.namelist zf_server) = 3
    /\ In intermediate_filename (Zip.namelist zf_server)
    /\ In ("2_" ++ basename ++ ".crt") (Zip.namelist zf_server)
    /\ Zip.read_ascii zf_server intermediate_filename = Ok inter
    /\ Zip.read_ascii zf_server ("2_" ++ basename ++ ".crt") = Ok cert.
Proof.
  unfold read_server. split.
  - intros H.
    apply rbind_ok_inv in H as (inner & R0 & H).
    apply rbind_ok_inv in H as (zf_server & O & H).
    apply rbind_ok_inv in H as (u1 & A1 & H). apply assert_ok_inv in A1.
    apply rbind_ok_inv in H as (u2 & A2 & H). apply assert_ok_inv in A2.
    apply rbind_ok_inv in H as (u3 & A3 & H). apply assert_ok_inv in A3.
    apply rbind_ok_inv in H as (i & R1 & H).
    apply rbind_ok_inv in H as (c & R2 & H).
    inversion H; subst c i.
    exists inner, zf_server. repeat split; try assumption.
    + now apply Nat.eqb_eq.
    + now apply str_in_In.
    + now apply str_in_In.
  - intros (inner & zf_server & R0 & O & L & I1 & I2 & R1 & R2).
    apply Nat.eqb_eq in L. apply str_in_In in I1, I2.
    rewrite R0. cbn [rbind]. rewrite O. cbn [rbind].
    rewrite L, I1, I2. cbn [assert_ rbind].
    rewrite R1. cbn [rbind]. rewrite R2. reflexivity.
Qed.

Lemma layout_two_members n1 d1 ok1 n2 d2 ok2 basename :
  n1 <> "OtherServer.zip" -> n2 <> "OtherServer.zip" ->
  layout [(n1, d1, ok1); (n2, d2, ok2)] basename
  = read_client [(n1, d1, ok1); (n2, d2, ok2)].
Proof.
  intros H1 H2. unfold layout.
  replace (str_in "OtherServer.zip"
             (Zip.namelist [(n1, d1, ok1); (n2, d2, ok2)])) with false.
  - reflexivity.
  - symmetry. apply str_in_not_In. simpl.
    intros [E|[E|[]]]; congruence.
Qed.

(** C3, as the code has it.  Of an archive of two members, neither of
    them the nested server archive, [extract] makes a bundle exactly when
    the file name ends in [.zip], the first member is [1_Intermediate.crt]
    and the second is not, both members pass the CRC check, are ASCII and
    have the delimiter lines of a certificate; the bundle is then the file
    name without [.zip], the content of the second member, whatever its
    name, as the certificate, and the content of the first as the
    intermediate certificate. *)
Theorem two_member_layout fname s n1 d1 ok1 n2 d2 ok2 r :
  n1 <> "OtherServer.zip" -> n2 <> "OtherServer.zip" ->
  extract fname (Archive s [(n1, d1, ok1); (n2, d2, ok2)]) = Ok r <->
  last4 fname = ".zip"
  /\ n1 = intermediate_filename /\ n2 <> intermediate_filename
  /\ ok1 = true /\ ok2 = true
  /\ is_ascii (raw d1) = true /\ is_ascii (raw d2) = true
  /\ has_certificate_markers (raw d1) = true
  /\ has_certificate_markers (raw d2) = true
  /\ r = (drop_last4 fname, raw d2, raw d1).
Proof.
  intros Hn1 Hn2. split.
  - intros H.
    apply extract_ok_inv in H as (s' & ms & pair & E & Hz & Ht & Hl & Hc).
    inversion E; subst s' ms; clear E.
    rewrite layout_two_members in Hl by assumption.
    apply read_client_two in Hl as (-> & Hne & -> & -> & Ha1 & Ha2 & ->).
    apply check_markers_inv in Hc as (Hm1 & Hm2 & ->).
    repeat split; assumption.
  - intros (Hz & -> & Hne & -> & -> & Ha1 & Ha2 & Hm1 & Hm2 & ->).
    rewrite extract_archive by (try assumption; reflexivity).
    rewrite layout_two_members by assumption.
    rewrite (proj2 (read_client_two _ _ _ _ _ _ (raw d2, raw d1)))
      by (repeat split; assumption).
    cbn [rbind]. now apply check_markers_ok.
Qed.

(** C5, as the code has it.  Of a sound archive with a member named
    [OtherServer.zip], [extract] makes a bundle exactly when that member
    opens as an archive of three members, among them [1_Intermediate.crt]
    and ["2_" + basename + ".crt"], both readable, ASCII and with the
    delimiter lines of a certificate; the third member is not looked at.
    The bundle has the content of the second of these names as the
    certificate and of the first as the intermediate certificate. *)
Theorem server_layout fname s ms r :
  last4 fname = ".zip" -> Zip.testzip ms = None ->
  In "OtherServer.zip" (Zip.namelist ms) ->
  extract fname (Archive s ms) = Ok r <->
  exists inner zf_server cert inter,
    Zip.read ms "OtherServer.zip" = Ok inner
    /\ Zip.open inner = Ok zf_server
    /\ List.length (Zip.namelist zf_server) = 3
    /\ In intermediate_filename (Zip.namelist zf_server)
    /\ In ("2_" ++ drop_last4 fname ++ ".crt") (Zip.namelist zf_server)
    /\ Zip.read_ascii zf_server intermediate_filename = Ok inter
    /\ Zip.read_ascii zf_server ("2_" ++ drop_last4 fname ++ ".crt") = Ok cert
    /\ has_certificate_markers inter = true
    /\ has_certificate_markers cert = true
    /\ r = (drop_last4 fname, cert, inter).
Proof.
  intros Hz Ht Hin. rewrite extract_archive by assumption.
  unfold layout. apply str_in_In in Hin. rewrite Hin. split.
  - intros H. apply rbind_ok_inv in H as ([cert inter] & Hl & Hc).
    apply read_server_ok in Hl
      as (inner & zf_server & R0 & O & L & I1 & I2 & R1 & R2).
    apply check_markers_inv in Hc as (Hm1 & Hm2 & ->).
    exists inner, zf_server, cert, inter. repeat split; assumption.
  - intros (inner & zf_server & cert & inter
            & R0 & O & L & I1 & I2 & R1 & R2 & Hm1 & Hm2 & ->).
    rewrite (proj2 (read_server_ok ms (drop_last4 fname) cert inter))
      by (exists inner, zf_server; repeat split; assumption).
    cbn [rbind]. now apply check_markers_ok.
Qed.

(** A nested archive with another number of members is turned down with
    its list of names. *)
Lemma server_wrong_count fname s ms inner zf_server :
  last4 fname = ".zip" -> Zip.testzip ms = None ->
  In "OtherServer.zip" (Zip.namelist ms) ->
  Zip.read ms "OtherServer.zip" = Ok inner ->
  Zip.open inner = Ok zf_server ->
  List.length (Zip.namelist zf_server) <> 3 ->
  extract fname (Archive s ms)
  = Raise (AssertionError (ArgNames (Zip.namelist zf_server))).
Proof.
  intros Hz Ht Hin R0 O L. rewrite extract_archive by assumption.
  unfold layout. apply str_in_In in Hin. rewrite Hin.
  unfold read_server. rewrite R0. cbn [rbind]. rewrite O. cbn [rbind].
  apply Nat.eqb_neq in L. rewrite L. reflexivity.
Qed.

(** C6. A sound archive without the nested server archive that has
    another number of members than two, or two members none of which is
    [1_Intermediate.crt], is turned down: with the [ValueError]
    "unexpected zip content" in the first case, with the assertion
    failure that carries the list of names in the second.  Neither is a
    failure of the checks on the content of a member (ASCII, delimiter
    lines). *)
Theorem unrecognized_layout fname s ms :
  last4 fname = ".zip" -> Zip.testzip ms = None ->
  ~ In "OtherServer.zip" (Zip.namelist ms) ->
  List.length (Zip.namelist ms) <> 2
  \/ ~ In intermediate_filename (Zip.namelist ms) ->
  exists e,
    extract fname (Archive s ms) = Raise e
    /\ format_failure e = false
    /\ (List.length (Zip.namelist ms) <> 2 ->
        e = ValueError ("unexpected zip content: "
                        ++ str_names (Zip.namelist ms)))
    /\ (List.length (Zip.namelist ms) = 2 ->
        e = AssertionError (ArgNames (Zip.namelist ms))).
Proof.
  intros Hz Ht Hno Hshape. rewrite extract_archive by assumption.
  unfold layout. apply str_in_not_In in Hno. rewrite Hno.
  destruct (List.length (Zip.namelist ms) =? 2)%nat eqn:El.
  - apply Nat.eqb_eq in El.
    destruct Hshape as [Hl|Hi]; [contradiction|].
    exists (AssertionError (ArgNames (Zip.namelist ms))).
    split; [|split; [reflexivity|split; [contradiction|reflexivity]]].
    unfold read_client.
    assert (Hc : intermediate_filename <> nth 1 (Zip.namelist ms) "").
    { intros E. apply Hi. rewrite E. apply nth_In. lia. }
    apply String.eqb_neq in Hc. rewrite Hc. cbn [negb assert_ rbind].
    apply str_in_not_In in Hi. rewrite Hi. reflexivity.
  - apply Nat.eqb_neq in El.
    exists (ValueError ("unexpected zip content: "
                        ++ str_names (Zip.namelist ms))).
    split; [reflexivity|split; [reflexivity|split; [reflexivity|contradiction]]].
Qed.

(** What the layouts accept and the checks of the content refuse is a
    format failure. *)
Lemma content_refused fname s ms pair e :
  last4 fname = ".zip" -> Zip.testzip ms = None ->
  layout ms (drop_last4 fname) = Ok pair ->
  extract fname (Archive s ms) = Raise e ->
  format_failure e = true.
Proof.
  intros Hz Ht Hl. rewrite extract_archive by assumption.
  rewrite Hl. cbn [rbind]. apply check_markers_raise.
Qed.

End Extract.

(** The archive of the specification: the intermediate certificate, then
    [2_foo.crt]. *)
Lemma two_member_layout_witness :
  extract (P := Scripted.platform) "foo.zip"
    (Archive "PK"
       [("1_Intermediate.crt", Raw Scripted.intermediate_pem, true);
        ("2_foo.crt", Raw Scripted.leaf_pem, true)])
  = Ok ("foo", Scripted.leaf_pem, Scripted.intermediate_pem).
Proof.
  apply (two_member_layout (P := Scripted.platform) "foo.zip" "PK"
           "1_Intermediate.crt" (Raw Scripted.intermediate_pem) true
           "2_foo.crt" (Raw Scripted.leaf_pem) true).
  - discriminate.
  - discriminate.
  - repeat split; try reflexivity. discriminate.
Defined.

(** The same two members in the other order: the member read as the
    certificate is the second one, which here is the intermediate
    certificate, and the first assertion of the client layout fails. *)
Lemma two_member_layout_counterexample :
  extract (P := Scripted.platform) "foo.zip"
    (Archive "PK"
       [("2_foo.crt", Raw Scripted.leaf_pem, true);
        ("1_Intermediate.crt", Raw Scripted.intermediate_pem, true)])
  = Raise (AssertionError (ArgNames ["2_foo.crt"; "1_Intermediate.crt"]))
  /\ extract (P := Scripted.platform) "foo.zip"
       (Archive "PK"
          [("2_foo.crt", Raw Scripted.leaf_pem, true);
           ("1_Intermediate.crt", Raw Scripted.intermediate_pem, true)])
     <> Ok ("foo", Scripted.leaf_pem, Scripted.intermediate_pem).
Proof.
  split; [reflexivity | discriminate].
Qed.

Lemma server_layout_witness :
  extract (P := Scripted.platform) "foo.zip" Scripted.server_bundle
  = Ok ("foo", Scripted.leaf_pem, Scripted.intermediate_pem).
Proof.
  apply (server_layout (P := Scripted.platform) "foo.zip" "PK"
           [("OtherServer.zip",
             Archive "PK"
               [("1_Intermediate.crt", Raw Scripted.intermediate_pem, true);
                ("2_foo.crt", Raw Scripted.leaf_pem, true);
                ("root.crt", Raw Scripted.intermediate_pem, true)],
             true)]); try reflexivity.
  - now left.
  - eexists _, _, _, _. repeat split; try reflexivity.
    + now left.
    + right. now left.
Defined.

(** The bundle is accepted although only one member of the nested
    archive is a numbered leaf: the third member is [root.crt]. *)
Lemma server_layout_counterexample :
  extract (P := Scripted.platform) "foo.zip" Scripted.server_bundle
  = Ok ("foo", Scripted.leaf_pem, Scripted.intermediate_pem)
  /\ server_shape "foo" ["1_Intermediate.crt"; "2_foo.crt"; "root.crt"] = false.
Proof.
  split; reflexivity.
Qed.

(** Three loose members; two members without the intermediate
    certificate. *)
Lemma unrecognized_layout_witness :
  extract (P := Scripted.platform) "foo.zip"
    (Archive "PK" [("a.crt", Raw "", true); ("b.crt", Raw "", true);
                   ("c.crt", Raw "", true)])
  = Raise (ValueError "unexpected zip content: [a.crt, b.crt, c.crt]")
  /\ extract (P := Scripted.platform) "foo.zip"
       (Archive "PK" [("1_foo.crt", Raw Scripted.leaf_pem, true);
                      ("2_foo.crt", Raw Scripted.leaf_pem, true)])
     = Raise (AssertionError (ArgNames ["1_foo.crt"; "2_foo.crt"])).
Proof.
  destruct (unrecognized_layout (P := Scripted.platform) "foo.zip" "PK"
              [("a.crt", Raw "", true); ("b.crt", Raw "", true);
               ("c.crt", Raw "", true)] eq_refl eq_refl)
    as (e1 & H1 & _ & E1 & _).
  { intros [E|[E|[E|[]]]]; discriminate. }
  { left. discriminate. }
  destruct (unrecognized_layout (P := Scripted.platform) "foo.zip" "PK"
              [("1_foo.crt", Raw Scripted.leaf_pem, true);
               ("2_foo.crt", Raw Scripted.leaf_pem, true)] eq_refl eq_refl)
    as (e2 & H2 & _ & _ & E2).
  { intros [E|[E|[]]]; discriminate. }
  { right. intros [E|[E|[]]]; discriminate. }
  rewrite H1, H2. split.
  - f_equal. apply E1. discriminate.
  - f_equal. apply E2. reflexivity.
Defined.

(** ** The CSR decoder and the command line *)

Section Decoder.

Context {P : Platform}.

Lemma prefix_append (p t : string) : prefix p (p ++ t) = true.
Proof.
  induction p as [|a p IH]; simpl.
  - now destruct t.
  - destruct (ascii_dec a a) as [_|N]; [exact IH | now elim N].
Qed.

Lemma prefix_inv (p s : string) :
  prefix p s = true -> exists t, s = p ++ t.
Proof.
  revert s. induction p as [|a p IH]; intros s H.
  - now exists s.
  - destruct s as [|b s]; simpl in H; [discriminate|].
    destruct (ascii_dec a b) as [->|N]; [|discriminate].
    destruct (IH s H) as [t ->]. now exists t.
Qed.

Lemma strip_prefix_append (p r : string) : Re.strip_prefix p (p ++ r) = Some r.
Proof.
  induction p as [|a p IH]; simpl;
    [reflexivity | now rewrite Ascii.eqb_refl].
Qed.

Lemma strip_prefix_inv (p s r : string) :
  Re.strip_prefix p s = Some r -> s = p ++ r.
Proof.
  revert s. induction p as [|a p IH]; intros s H; simpl in H.
  - now inversion H.
  - destruct s as [|b s]; [discriminate|].
    destruct (a =? b)%char eqn:E; [|discriminate].
    apply Ascii.eqb_eq in E. subst b. simpl. now rewrite (IH s H).
Qed.

Lemma span_class_inv (s g r : string) :
  Re.span_class s = (g, r) -> s = g ++ r /\ all_in_class g = true.
Proof.
  revert g r. induction s as [|c s IH]; intros g r H; simpl in H.
  - inversion H. now split.
  - destruct (Re.in_class c) eqn:Ec.
    + destruct (Re.span_class s) as [g' r'] eqn:Es. inversion H; subst g r.
      destruct (IH g' r' eq_refl) as [-> Hg]. split; [reflexivity|].
      unfold all_in_class. simpl. now rewrite Ec.
    + inversion H. now split.
Qed.

(** A run of class characters followed by a character outside the class
    is the longest run. *)
Lemma span_class_append (g : string) c t :
  all_in_class g = true -> Re.in_class c = false ->
  Re.span_class (g ++ String c t) = (g, String c t).
Proof.
  intros Hg Hc. induction g as [|a g IH]; simpl.
  - now rewrite Hc.
  - unfold all_in_class in Hg. simpl in Hg.
    apply andb_true_iff in Hg as [Ha Hg]. rewrite Ha, (IH Hg). reflexivity.
Qed.

Lemma match_here_block payload after :
  all_in_class payload = true ->
  Re.match_here (Re.BEGIN_REQUEST ++ payload ++ Re.END_REQUEST ++ after)
  = Some payload.
Proof.
  intros Hp. unfold Re.match_here. rewrite strip_prefix_append.
  change (Re.END_REQUEST ++ after)
    with (String "-" ("----END CERTIFICATE REQUEST-----" ++ after)).
  rewrite span_class_append by (assumption || reflexivity).
  change (String "-" ("----END CERTIFICATE REQUEST-----" ++ after))
    with (Re.END_REQUEST ++ after).
  now rewrite prefix_append.
Qed.

Lemma match_here_inv s payload :
  Re.match_here s = Some payload ->
  all_in_class payload = true
  /\ exists after, s = Re.BEGIN_REQUEST ++ payload ++ Re.END_REQUEST ++ after.
Proof.
  unfold Re.match_here.
  destruct (Re.strip_prefix Re.BEGIN_REQUEST s) as [r|] eqn:Es; [|discriminate].
  destruct (Re.span_class r) as [g r'] eqn:Er.
  destruct (prefix Re.END_REQUEST r') eqn:Ep; [|discriminate].
  intros H. inversion H; subst g.
  apply strip_prefix_inv in Es. apply span_class_inv in Er as [-> Hg].
  apply prefix_inv in Ep as [after ->].
  split; [assumption | now exists after].
Qed.

Lemma search_cons c s :
  Re.search (String c s)
  = match Re.match_here (String c s) with
    | Some g => Some g
    | None => Re.search s
    end.
Proof. reflexivity. Qed.

(** The search finds a block only where there is one... *)
Lemma search_sound s payload :
  Re.search s = Some payload -> has_request_block s.
Proof.
  induction s as [|c s IH].
  - discriminate.
  - rewrite search_cons.
    destruct (Re.match_here (String c s)) as [g|] eqn:E.
    + intros _. apply match_here_inv in E as (Hg & after & E).
      exists "", g, after. split; [exact Hg | exact E].
    + intros H. destruct (IH H) as (before & g & after & Hg & ->).
      now exists (String c before), g, after.
Qed.

(** ... and finds one wherever there is one. *)
Lemma search_complete s :
  has_request_block s -> exists payload, Re.search s = Some payload.
Proof.
  intros (before & g & after & Hg & ->).
  induction before as [|c before IH].
  - exists g. change ("" ++ Re.BEGIN_REQUEST ++ g ++ Re.END_REQUEST ++ after)
      with (Re.BEGIN_REQUEST ++ g ++ Re.END_REQUEST ++ after).
    assert (E := match_here_block g after Hg).
    change (Re.BEGIN_REQUEST ++ g ++ Re.END_REQUEST ++ after)
      with (String "-" ("----BEGIN CERTIFICATE REQUEST-----"
                        ++ g ++ Re.END_REQUEST ++ after)) in *.
    rewrite search_cons. now rewrite E.
  - change ((String c before) ++ Re.BEGIN_REQUEST ++ g ++ Re.END_REQUEST ++ after)
      with (String c (before ++ Re.BEGIN_REQUEST ++ g ++ Re.END_REQUEST ++ after)).
    rewrite search_cons.
    destruct (Re.match_here (String c _)) as [g'|]; [now exists g' | exact IH].
Qed.

Lemma search_none s : ~ has_request_block s -> Re.search s = None.
Proof.
  intros H. destruct (Re.search s) as [g|] eqn:E; [|reflexivity].
  elim H. now apply (search_sound s g).
Qed.

(** C7. [CSR(...)] fails with the [ValueError] "Not a valid PEM CSR" on
    a text without a delimited base64 block; when the block is there and
    the DER decoder refuses its bytes, it fails with the exception of the
    decoder.  Either way the loop of the [csr] command catches the
    exception, prints that the submission failed and goes on with the
    next file. *)
Theorem CSR_decoding_failures (arg : pem_arg) :
  (~ has_request_block (text_of arg) ->
   CSR_init arg = Raise (ValueError "Not a valid PEM CSR"))
  /\ (forall payload der e,
        Re.search (text_of arg) = Some payload ->
        b64decode payload = Ok der ->
        der_CertificationRequest der = Raise e ->
        CSR_init arg = Raise e)
  /\ (forall e f profile rest st,
        arg = OfFile f ->
        CSR_init arg = Raise e ->
        main_csr profile (f :: rest) st
        = ((Stdout ("Submitting " ++ name f) :: report e)
             ++ fst (main_csr profile rest st),
           snd (main_csr profile rest st))%list).
Proof.
  split; [|split].
  - intros H. apply search_none in H.
    unfold CSR_init, parse_pem. fold (text_of arg). now rewrite H.
  - intros payload der e Hs Hb Hd.
    unfold CSR_init, parse_pem. fold (text_of arg).
    rewrite Hs, Hb. simpl. now rewrite Hd.
  - intros e f profile rest st -> He.
    simpl main_csr. unfold submit_file. rewrite He.
    destruct (main_csr profile rest st) as [out' st'']. reflexivity.
Qed.

End Decoder.

(** Two files the command cannot submit: both failures are printed and
    the loop reaches its end. *)
Lemma CSR_decoding_failures_witness :
  CSR_init (P := Scripted.platform) (OfFile Scripted.not_a_request)
  = Raise (ValueError "Not a valid PEM CSR")
  /\ CSR_init (P := Scripted.platform) (OfFile Scripted.truncated_request)
     = Raise (Raised "pyasn1.error.SubstrateUnderrunError" false
                     "Short octet stream")
  /\ main_csr "server" [Scripted.truncated_request; Scripted.not_a_request]
       (Scripted.session ["example.com"])
     = ([Stdout "Submitting empty.csr";
         Stdout "Submission failed:";
         Stderr "Traceback (most recent call last):";
         Stdout "Submitting notes.txt";
         Stdout "Submission failed: Not a valid PEM CSR"],
        Scripted.session ["example.com"]).
Proof.
  destruct (CSR_decoding_failures (P := Scripted.platform)
              (OfFile Scripted.not_a_request)) as (Hnone & _ & Hloop1).
  destruct (CSR_decoding_failures (P := Scripted.platform)
              (OfFile Scripted.truncated_request)) as (_ & Hder & Hloop2).
  assert (H1 : CSR_init (P := Scripted.platform) (OfFile Scripted.not_a_request)
               = Raise (ValueError "Not a valid PEM CSR")).
  { apply Hnone. intros H. apply search_complete in H as [g H].
    discriminate. }
  assert (H2 : CSR_init (P := Scripted.platform) (OfFile Scripted.truncated_request)
               = Raise (Raised "pyasn1.error.SubstrateUnderrunError" false
                               "Short octet stream")).
  { apply (Hder "
" ""); reflexivity. }
  split; [exact H1|]. split; [exact H2|].
  rewrite (Hloop2 _ Scripted.truncated_request "server" [Scripted.not_a_request]
             (Scripted.session ["example.com"]) eq_refl H2).
  rewrite (Hloop1 _ Scripted.not_a_request "server" []
             (Scripted.session ["example.com"]) eq_refl H1).
  reflexivity.
Defined.

(** * Further properties of the module *)

(** ** The session *)

Section Session.

Context {P : Platform}.

Lemma bind_cases {A B} (m : M A) (k : A -> M B) st r st2 :
  bind m k st = (r, st2) ->
  (exists a st1, m st = (Ok a, st1) /\ k a st1 = (r, st2))
  \/ (exists e, m st = (Raise e, st2) /\ r = Raise e).
Proof.
  unfold bind. destruct (m st) as [[a|e] st1]; intros H.
  - left. now exists a, st1.
  - right. exists e. now inversion H.
Qed.

Lemma request_run uri method body st :
  request_ uri method body st
  = match h_request (request_sent uri method body (self st)) (world st) with
    | (Raise e, w) => (Raise e, {| self := self st; world := w |})
    | (Ok (resp, content), w) =>
        let st' := {| self := self st; world := w |} in
        match header "content-type" (resp_headers resp) with
        | Some ct =>
            if ct =? "text/html; charset=utf-8" then
              match utf8_decode (raw content) with
              | Ok text => (Ok (resp, Raw text), st')
              | Raise e => (Raise e, st')
              end
            else (Ok (resp, content), st')
        | None => (Ok (resp, content), st')
        end
    end.
Proof. reflexivity. Qed.

(** A request that returns was answered by the transport with the
    response it returns. *)
Lemma request_ok_inv uri method body st resp content st1 :
  request_ uri method body st = (Ok (resp, content), st1) ->
  self st1 = self st
  /\ exists content0,
       h_request (request_sent uri method body (self st)) (world st)
       = (Ok (resp, content0), world st1)
       /\ (header "content-type" (resp_headers resp)
           <> Some "text/html; charset=utf-8" -> content = content0).
Proof.
  rewrite request_run.
  destruct (h_request _ (world st)) as [[[resp0 content0]|e] w];
    [|discriminate].
  simpl. destruct (header "content-type" (resp_headers resp0)) as [ct|] eqn:Eh.
  - destruct (ct =? "text/html; charset=utf-8") eqn:Ect.
    + destruct (utf8_decode (raw content0)) as [text|e]; [|discriminate].
      intros H. inversion H; subst. simpl. split; [reflexivity|].
      exists content0. split; [reflexivity|].
      apply String.eqb_eq in Ect. subst ct. intros N. now elim N.
    + intros H. inversion H; subst. simpl. split; [reflexivity|].
      exists content. split; [reflexivity | reflexivity].
  - intros H. inversion H; subst. simpl. split; [reflexivity|].
    exists content. split; reflexivity.
Qed.

Lemma getitem_ok_inv resp k v :
  getitem resp k = Ok v -> header k (resp_headers resp) = Some v.
Proof.
  unfold getitem. destruct (header k (resp_headers resp));
    intros H; now inversion H.
Qed.

Lemma lift_run {A} (r : Result A) st x st1 :
  lift r st = (x, st1) -> x = r /\ st1 = st.
Proof. unfold lift. intros H. now inversion H. Qed.

(** X1. Before [authenticate] has succeeded the validated resources cannot
    be asked for: the call, the domain check and the submission of a
    request with a known profile all fail on the first assertion, and
    the session and the world stay as they were. *)
Theorem not_authenticated st :
  authenticated (self st) = false ->
  (forall force_update,
     get_validated_resources force_update st
     = (Raise (AssertionError (ArgStr "not authenticated")), st))
  /\ (forall domain,
        is_validated_domain domain st
        = (Raise (AssertionError (ArgStr "not authenticated")), st))
  /\ (forall profile csr,
        In profile CERTIFICATE_PROFILES ->
        submit_certificate_request profile csr st
        = (Raise (AssertionError (ArgStr "not authenticated")), st)).
Proof.
  intros Ha.
  assert (G : forall b, get_validated_resources b st
              = (Raise (AssertionError (ArgStr "not authenticated")), st)).
  { intros b. unfold get_validated_resources. now rewrite Ha. }
  split; [exact G|]. split.
  - intros domain. unfold is_validated_domain. now apply bind_raise.
  - intros profile csr Hp. unfold submit_certificate_request.
    apply str_in_In in Hp. rewrite Hp.
    rewrite (bind_ok _ _ st tt st) by reflexivity.
    now apply bind_raise.
Qed.

(** X2. The validated resources are fetched once: after a call that
    returned, a second call returns the same two lists and changes
    neither the session nor the world, and so does every domain check. *)
Theorem validated_resources_cached st emails domains st1 :
  get_validated_resources false st = (Ok (emails, domains), st1) ->
  get_validated_resources false st1 = (Ok (emails, domains), st1)
  /\ forall domain,
       is_validated_domain domain st1 = (first_covering domain domains, st1).
Proof.
  intros H. apply get_validated_resources_stored in H as (He & Hd & Ha).
  assert (G := get_validated_resources_again st1 emails domains He Hd Ha).
  split; [exact G|]. intros domain.
  now apply (is_validated_domain_run domain st1 emails).
Qed.




(** X4. [authenticate] returns [True] only.  It has then sent one GET of
    the authentication address over the connection that holds the client
    certificate, the answer had status 302, a [location] in the control
    panel and a [set-cookie] header starting with [MyStartSSLCookie=];
    the session has the flag set and that very header stored as its
    cookie, the other fields are as before, and every later request of
    the session carries the cookie in its [Cookie] header.  When it
    raises, no field of the session has changed: the flag is set by
    nothing but a response that passed the four checks. *)
Theorem authenticate_outcome cert key st r st1 :
  authenticate cert key st = (r, st1) ->
  match r with
  | Ok b =>
      b = true /\ authenticated (self st1) = true
      /\ (exists cookie resp content,
            h_request (request_sent STARTSSL_AUTHURI "GET" None (self st))
                      (h_add_certificate key cert (world st))
            = (Ok (resp, content), world st1)
            /\ status resp = 302%Z
            /\ (exists location,
                  header "location" (resp_headers resp) = Some location
                  /\ startswith location "https://Startssl.com/ControlPanel"
                     = true)
            /\ header "set-cookie" (resp_headers resp) = Some cookie
            /\ cookies (self st1) = Some cookie
            /\ startswith cookie "MyStartSSLCookie=" = true
            /\ forall uri method body,
                 In ("Cookie", cookie)
                    (headers (request_sent uri method body (self st1))))
      /\ user_agent (self st1) = user_agent (self st)
      /\ validated_emails (self st1) = validated_emails (self st)
      /\ validated_domains (self st1) = validated_domains (self st)
  | Raise _ => self st1 = self st
  end.
Proof.
  unfold authenticate. intros H.
  apply bind_cases in H as [(u0 & s0 & B0 & H)|(e & B0 & ->)];
    [|discriminate].
  injection B0 as _ E0. subst s0.
  apply bind_cases in H as [(rc & s1 & B1 & H)|(e & B1 & ->)];
    [|now apply request_self in B1].
  destruct rc as [resp content].
  assert (Hreq := B1).
  apply request_ok_inv in Hreq as (_ & content0 & Hreq & _).
  simpl in Hreq.
  apply request_self in B1. simpl in B1.
  apply bind_cases in H as [(u2 & s2 & B2 & H)|(e & B2 & ->)];
    [|now apply lift_run in B2 as [_ ->]].
  apply lift_run in B2 as [E2 ->].
  symmetry in E2. apply assert_ok_inv in E2. simpl in E2.
  apply bind_cases in H as [(loc & s3 & B3 & H)|(e & B3 & ->)];
    [|now apply lift_run in B3 as [_ ->]].
  apply lift_run in B3 as [E3 ->].
  symmetry in E3. apply getitem_ok_inv in E3. simpl in E3.
  apply bind_cases in H as [(u4 & s4 & B4 & H)|(e & B4 & ->)];
    [|now apply lift_run in B4 as [_ ->]].
  apply lift_run in B4 as [E4 ->].
  symmetry in E4. apply assert_ok_inv in E4.
  apply bind_cases in H as [(u5 & s5 & B5 & H)|(e & B5 & ->)];
    [|now apply lift_run in B5 as [_ ->]].
  apply lift_run in B5 as [_ ->].
  apply bind_cases in H as [(cookie & s6 & B6 & H)|(e & B6 & ->)];
    [|now apply lift_run in B6 as [_ ->]].
  apply lift_run in B6 as [E6 ->].
  symmetry in E6. apply getitem_ok_inv in E6. simpl in E6.
  apply bind_cases in H as [(u7 & s7 & B7 & H)|(e & B7 & ->)];
    [|now apply lift_run in B7 as [_ ->]].
  apply lift_run in B7 as [E7 ->].
  symmetry in E7. apply assert_ok_inv in E7.
  apply bind_cases in H as [(u8 & s8 & B8 & H)|(e & B8 & ->)];
    [|discriminate].
  unfold set_self in B8. injection B8 as _ E8. subst s8.
  apply bind_cases in H as [(u9 & s9 & B9 & H)|(e & B9 & ->)];
    [|discriminate].
  unfold set_self in B9. injection B9 as _ E9. subst s9.
  injection H as Er Est. subst r st1. simpl. rewrite B1.
  split; [reflexivity|]. split; [reflexivity|]. split.
  - exists cookie, resp, content0.
    split; [exact Hreq|]. split; [now apply Z.eqb_eq|].
    split; [now exists loc|]. split; [exact E6|].
    split; [reflexivity|]. split; [exact E7|].
    intros uri method body. unfold request_sent. simpl.
    destruct (cookie =? "") eqn:E.
    + apply String.eqb_eq in E. subst cookie. discriminate.
    + apply in_or_app. right. now left.
  - repeat split.
Qed.

End Session.

Lemma not_authenticated_witness :
  submit_certificate_request "server"
    (Scripted.request_for "example.com" "www.example.com") (Cases.fresh [])
  = (Raise (AssertionError (ArgStr "not authenticated")), Cases.fresh []).
Proof.
  exact (proj2 (proj2 (not_authenticated (Cases.fresh []) eq_refl))
           "server" (Scripted.request_for "example.com" "www.example.com")
           (or_intror (or_introl eq_refl))).
Defined.


(** Two requests fetch the two lists; the next call sends none. *)
Lemma validated_resources_cached_witness :
  get_validated_resources false
    (Cases.fetched ["admin@example.com"] ["example.com"; "example.org"]
                   "MyStartSSLCookie=1" [])
  = (Ok (["admin@example.com"], ["example.com"; "example.org"]),
     Cases.fetched ["admin@example.com"] ["example.com"; "example.org"]
                   "MyStartSSLCookie=1" []).
Proof.
  exact (proj1 (validated_resources_cached
           (Cases.logged_in [Cases.ok_json "example.com,example.org";
                             Cases.ok_json "admin@example.com"])
           ["admin@example.com"] ["example.com"; "example.org"]
           (Cases.fetched ["admin@example.com"] ["example.com"; "example.org"]
                          "MyStartSSLCookie=1" [])
           eq_refl)).
Defined.


Lemma authenticate_outcome_witness :
  authenticated
    (self (@Build_State Scripted.platform
             {| user_agent := None; validated_emails := None;
                validated_domains := None; authenticated := true;
                cookies := Some "MyStartSSLCookie=abc" |} []))
  = true.
Proof.
  exact (proj1 (proj2 (authenticate_outcome "client.crt" "client.key"
           (Cases.fresh [Cases.redirect_to_panel]) (Ok true)
           (@Build_State Scripted.platform
              {| user_agent := None; validated_emails := None;
                 validated_domains := None; authenticated := true;
                 cookies := Some "MyStartSSLCookie=abc" |} [])
           eq_refl))).
Defined.

(** ** Downloads *)

Section Download.

Context {P : Platform}.

Lemma substring_head_length (s : string) : forall m,
  String.length (substring 0 m s) <= String.length s.
Proof.
  induction s as [|c s IH]; intros [|m]; simpl; try lia.
  specialize (IH m). lia.
Qed.

(** A name that ends in [.zip] is its stem followed by [.zip]. *)
Lemma last4_inv (s : string) : last4 s = ".zip" -> s = drop_last4 s ++ ".zip".
Proof.
  unfold last4, drop_last4. intros H.
  destruct (Nat.le_gt_cases 4 (String.length s)) as [Hl|Hl].
  - rewrite <- (substring_split s (String.length s - 4)) at 1 by lia.
    f_equal.
    replace (String.length s - (String.length s - 4)) with 4 by lia.
    exact H.
  - exfalso. replace (String.length s - 4) with 0 in H by lia.
    assert (L := substring_head_length s 4). rewrite H in L. simpl in L. lia.
Qed.

Lemma from_prefix (p t : string) : from (String.length p) (p ++ t) = t.
Proof.
  unfold from. rewrite length_append.
  replace (String.length p + String.length t - String.length p)
    with (String.length t) by lia.
  apply substring_skip.
Qed.

(** What [get_certificate_zip] returns is what the transport answered:
    status 200, an octet stream, and the file name after
    [attachment; filename=]; the content is passed on as it came. *)
Lemma get_certificate_zip_ok_inv certificate_id st fname content st1 :
  get_certificate_zip certificate_id st = (Ok (fname, content), st1) ->
  self st1 = self st
  /\ exists resp,
       h_request
         (request_sent (STARTSSL_BASEURI ++ "/CertList/DownLoadCert?orderId="
                        ++ str certificate_id) "GET" None (self st))
         (world st)
       = (Ok (resp, content), world st1)
       /\ status resp = 200%Z
       /\ header "content-disposition" (resp_headers resp)
          = Some ("attachment; filename=" ++ fname).
Proof.
  unfold get_certificate_zip. intros H.
  apply bind_inv in H as ([resp content0] & s1 & Br & H).
  apply request_ok_inv in Br as (Eself & content1 & Hreq & Hct).
  apply bind_inv in H as (u1 & s2 & B1 & H).
  apply lift_run in B1 as [E1 ->]. symmetry in E1. apply assert_ok_inv in E1.
  apply bind_inv in H as (ct & s3 & B2 & H).
  apply lift_run in B2 as [E2 ->]. symmetry in E2. apply getitem_ok_inv in E2.
  apply bind_inv in H as (u3 & s4 & B3 & H).
  apply lift_run in B3 as [E3 ->]. symmetry in E3. apply assert_ok_inv in E3.
  apply String.eqb_eq in E3. subst ct.
  apply bind_inv in H as (cd & s5 & B4 & H).
  apply lift_run in B4 as [E4 ->]. symmetry in E4. apply getitem_ok_inv in E4.
  apply bind_inv in H as (u5 & s6 & B5 & H).
  apply lift_run in B5 as [E5 ->]. symmetry in E5. apply assert_ok_inv in E5.
  unfold ret in H. injection H as Ef Ec Es. subst fname content0 s1.
  split; [exact Eself|]. exists resp.
  assert (Ec1 : content = content1) by (apply Hct; rewrite E2; discriminate).
  subst content1.
  split; [exact Hreq|]. split; [now apply Z.eqb_eq|].
  rewrite E4. f_equal.
  apply prefix_inv in E5 as [t ->].
  f_equal. symmetry. exact (from_prefix "attachment; filename=" t).
Qed.

Lemma read_client_ascii zf pair :
  read_client zf = Ok pair ->
  is_ascii (fst pair) = true /\ is_ascii (snd pair) = true.
Proof.
  unfold read_client. intros H.
  apply rbind_ok_inv in H as (u1 & _ & H).
  apply rbind_ok_inv in H as (u2 & _ & H).
  apply rbind_ok_inv in H as (u3 & _ & H).
  apply rbind_ok_inv in H as (inter & R1 & H).
  apply rbind_ok_inv in H as (cert & R2 & H).
  apply read_ascii_ok_inv in R1 as (d1 & _ & Ha1 & ->).
  apply read_ascii_ok_inv in R2 as (d2 & _ & Ha2 & ->).
  injection H as <-. now split.
Qed.

Lemma layout_ascii zf basename pair :
  layout zf basename = Ok pair ->
  is_ascii (fst pair) = true /\ is_ascii (snd pair) = true.
Proof.
  unfold layout.
  destruct (str_in "OtherServer.zip" (Zip.namelist zf)).
  - destruct pair as [cert inter]. intros H.
    apply read_server_ok in H as (inner & zs & _ & _ & _ & _ & _ & R1 & R2).
    apply read_ascii_ok_inv in R1 as (d1 & _ & Ha1 & ->).
    apply read_ascii_ok_inv in R2 as (d2 & _ & Ha2 & ->).
    now split.
  - destruct (List.length (Zip.namelist zf) =? 2)%nat; [|discriminate].
    apply read_client_ascii.
Qed.

(** X5. A certificate that [get_certificate] returns was downloaded with
    one GET of the order, answered with status 200 and an attachment
    named by the returned base name followed by [.zip]; the certificate
    and the intermediate certificate are ASCII and have the two
    delimiter lines; the fields of the session are as before. *)
Theorem get_certificate_returns certificate_id st basename cert inter st1 :
  get_certificate certificate_id st = (Ok (basename, cert, inter), st1) ->
  self st1 = self st
  /\ (exists resp content,
        h_request
          (request_sent (STARTSSL_BASEURI ++ "/CertList/DownLoadCert?orderId="
                         ++ str certificate_id) "GET" None (self st))
          (world st)
        = (Ok (resp, content), world st1)
        /\ status resp = 200%Z
        /\ header "content-disposition" (resp_headers resp)
           = Some ("attachment; filename=" ++ basename ++ ".zip")
        /\ extract (basename ++ ".zip") content = Ok (basename, cert, inter))
  /\ is_ascii cert = true /\ is_ascii inter = true
  /\ has_certificate_markers cert = true
  /\ has_certificate_markers inter = true.
Proof.
  unfold get_certificate. intros H.
  apply bind_inv in H as ([fname content] & s1 & Bz & H).
  apply lift_run in H as [E ->]. simpl in E. symmetry in E.
  apply get_certificate_zip_ok_inv in Bz as (Eself & resp & Hreq & Hst & Hcd).
  assert (E' := E).
  apply extract_ok_inv in E' as (s & ms & pair & -> & Hz & Ht & Hl & Hc).
  apply check_markers_inv in Hc as (Hm1 & Hm2 & Er).
  apply layout_ascii in Hl as [Ha1 Ha2].
  injection Er as -> -> ->.
  assert (Ef : fname = drop_last4 fname ++ ".zip") by now apply last4_inv.
  split; [exact Eself|]. split.
  - exists resp, (Archive s ms). rewrite <- Ef. repeat split; assumption.
  - repeat split; assumption.
Qed.

(** A member that a name stands for and that fails its CRC is found by
    the integrity check. *)
Lemma getinfo_bad_testzip member ms d :
  Zip.getinfo member ms = Some (d, false) ->
  exists bad, Zip.testzip ms = Some bad.
Proof.
  induction ms as [|[[n0 d0] ok0] t IH]; simpl; [discriminate|].
  destruct (Zip.getinfo member t) as [m|] eqn:Eg.
  - intros H. injection H as ->. destruct (IH eq_refl) as [bad Hb].
    destruct ok0; [now exists bad | now exists n0].
  - destruct (n0 =? member); [|discriminate].
    intros H. injection H as _ ->. now exists n0.
Qed.

(** X6. The order of the checks of [extract]: a file name that does not
    end in [.zip] is refused before the bytes are looked at; bytes that
    are no archive are refused by [zipfile]; an archive in which the
    member that some name stands for (the last one of that name) fails
    its CRC is refused as "invalid zip file" whatever its layout is. *)
Theorem extract_refusals fname :
  (last4 fname <> ".zip" ->
   forall zip_file,
     extract fname zip_file = Raise (AssertionError (ArgStr fname)))
  /\ (last4 fname = ".zip" ->
      (forall s, extract fname (Raw s)
                 = Raise (BadZipFile "File is not a zip file"))
      /\ (forall s ms member d,
            Zip.getinfo member ms = Some (d, false) ->
            extract fname (Archive s ms)
            = Raise (AssertionError (ArgStr "invalid zip file")))).
Proof.
  split.
  - intros H zip_file. unfold extract. apply String.eqb_neq in H.
    now rewrite H.
  - intros H. unfold extract. rewrite H. simpl. split; [reflexivity|].
    intros s ms member d Hg.
    destruct (getinfo_bad_testzip member ms d Hg) as [bad Hb].
    now rewrite Hb.
Qed.

(** X7. The server layout comes first and looks at nothing but the
    nested archive: a sound archive with a member [OtherServer.zip] gives
    what the archive with that member alone gives, whatever its other
    members are and however many. *)
Theorem server_layout_ignores_siblings fname s ms inner s' :
  last4 fname = ".zip" -> Zip.testzip ms = None ->
  In "OtherServer.zip" (Zip.namelist ms) ->
  Zip.read ms "OtherServer.zip" = Ok inner ->
  extract fname (Archive s ms)
  = extract fname (Archive s' [("OtherServer.zip", inner, true)]).
Proof.
  intros Hz Ht Hin Hr.
  rewrite !extract_archive by (assumption || reflexivity).
  unfold layout. apply str_in_In in Hin. rewrite Hin. simpl str_in.
  unfold read_server. rewrite Hr. reflexivity.
Qed.

Lemma read_ascii_first n1 d1 n2 d2 :
  n2 <> n1 ->
  Zip.read_ascii [(n1, d1, true); (n2, d2, true)] n1
  = if is_ascii (raw d1) then Ok (raw d1)
    else Raise (UnicodeDecodeError "'ascii' codec can't decode byte").
Proof.
  intros H. unfold Zip.read_ascii, Zip.read.
  rewrite getinfo_first by assumption. now rewrite String.eqb_refl.
Qed.

Lemma read_ascii_second n1 d1 n2 d2 :
  Zip.read_ascii [(n1, d1, true); (n2, d2, true)] n2
  = if is_ascii (raw d2) then Ok (raw d2)
    else Raise (UnicodeDecodeError "'ascii' codec can't decode byte").
Proof.
  unfold Zip.read_ascii, Zip.read. now rewrite getinfo_second.
Qed.

(** X8. An archive in the client layout, the intermediate certificate
    first and one other member second, is refused for its content only:
    when [extract] raises on it, a member is not ASCII or lacks a
    delimiter line. *)
Theorem client_layout_failures fname s d1 n2 d2 e :
  last4 fname = ".zip" ->
  n2 <> intermediate_filename -> n2 <> "OtherServer.zip" ->
  extract fname (Archive s [(intermediate_filename, d1, true); (n2, d2, true)])
  = Raise e ->
  format_failure e = true.
Proof.
  intros Hz Hn Ho. rewrite extract_archive by (assumption || reflexivity).
  rewrite layout_two_members by (assumption || discriminate).
  destruct (is_ascii (raw d1)) eqn:Ea1; [destruct (is_ascii (raw d2)) eqn:Ea2|].
  - rewrite (proj2 (read_client_two _ _ _ _ _ _ (raw d2, raw d1)))
      by (repeat split; assumption).
    cbn [rbind]. apply check_markers_raise.
  - unfold read_client. cbn [Zip.namelist map fst nth].
    assert (E : (intermediate_filename =? n2) = false)
      by (apply String.eqb_neq; congruence).
    unfold str_in. cbn [existsb]. rewrite E, !String.eqb_refl.
    cbn [negb orb]. rewrite orb_true_r. cbn [assert_ rbind].
    rewrite read_ascii_first by assumption. rewrite Ea1. cbn [rbind].
    rewrite read_ascii_second, Ea2. cbn [rbind].
    intros H. now inversion H.
  - unfold read_client. cbn [Zip.namelist map fst nth].
    assert (E : (intermediate_filename =? n2) = false)
      by (apply String.eqb_neq; congruence).
    unfold str_in. cbn [existsb]. rewrite E, !String.eqb_refl.
    cbn [negb orb]. rewrite orb_true_r. cbn [assert_ rbind].
    rewrite read_ascii_first by assumption. rewrite Ea1. cbn [rbind].
    intros H. now inversion H.
Qed.

End Download.

Lemma get_certificate_returns_witness :
  is_ascii Scripted.leaf_pem = true
  /\ is_ascii Scripted.intermediate_pem = true
  /\ has_certificate_markers Scripted.leaf_pem = true
  /\ has_certificate_markers Scripted.intermediate_pem = true.
Proof.
  exact (proj2 (proj2 (get_certificate_returns (VStr "42")
           (Cases.fetched [] [] "MyStartSSLCookie=1"
              [Cases.download "foo.zip" Cases.client_bundle])
           "foo" Scripted.leaf_pem Scripted.intermediate_pem
           (Cases.fetched [] [] "MyStartSSLCookie=1" []) eq_refl))).
Defined.

Lemma extract_refusals_witness :
  extract (P := Scripted.platform) "foo.tar" Cases.client_bundle
  = Raise (AssertionError (ArgStr "foo.tar"))
  /\ extract (P := Scripted.platform) "foo.zip" (Raw "<html>")
     = Raise (BadZipFile "File is not a zip file")
  /\ extract (P := Scripted.platform) "foo.zip"
       (Archive "PK"
          [("1_Intermediate.crt", Raw Scripted.intermediate_pem, true);
           ("2_foo.crt", Raw Scripted.leaf_pem, false)])
     = Raise (AssertionError (ArgStr "invalid zip file")).
Proof.
  split; [|split].
  - apply (proj1 (extract_refusals (P := Scripted.platform) "foo.tar")).
    discriminate.
  - exact (proj1 (proj2 (extract_refusals (P := Scripted.platform) "foo.zip")
                    eq_refl) "<html>").
  - exact (proj2 (proj2 (extract_refusals (P := Scripted.platform) "foo.zip")
                    eq_refl) "PK"
             [("1_Intermediate.crt", Raw Scripted.intermediate_pem, true);
              ("2_foo.crt", Raw Scripted.leaf_pem, false)]
             "2_foo.crt" (Raw Scripted.leaf_pem) eq_refl).
Defined.

(** Two members, one of them the nested archive: read as a server
    bundle, not as a client bundle. *)
Lemma server_layout_ignores_siblings_witness :
  extract (P := Scripted.platform) "foo.zip"
    (Archive "PK"
       [("1_Intermediate.crt", Raw Scripted.intermediate_pem, true);
        ("OtherServer.zip",
         Archive "PK"
           [("1_Intermediate.crt", Raw Scripted.intermediate_pem, true);
            ("2_foo.crt", Raw Scripted.leaf_pem, true);
            ("root.crt", Raw Scripted.intermediate_pem, true)],
         true)])
  = extract (P := Scripted.platform) "foo.zip" Scripted.server_bundle.
Proof.
  apply (server_layout_ignores_siblings (P := Scripted.platform));
    try reflexivity.
  right. now left.
Defined.

Lemma client_layout_failures_witness :
  format_failure (AssertionError (ArgStr "no END CERTIFICATE")) = true.
Proof.
  apply (client_layout_failures (P := Scripted.platform) "foo.zip" "PK"
           (Raw Scripted.intermediate_pem) "2_foo.crt"
           (Raw "-----BEGIN CERTIFICATE----- cut short")).
  - reflexivity.
  - discriminate.
  - discriminate.
  - reflexivity.
Defined.

(** ** The decoder *)

Section DecoderMore.

Context {P : Platform}.

Lemma common_name_of_found rdns v :
  common_name_of rdns = Ok (VStr v) <->
  exists pre a more post,
    rdns = (pre ++ (a :: more) :: post)%list
    /\ Forall not_common_name pre
    /\ oid_eqb (atv_type a) id_at_commonName = true
    /\ der_DirectoryString (atv_value a) = Ok v.
Proof.
  induction rdns as [|rdn rest IH]; simpl.
  - split; [discriminate|].
    intros ([|? ?] & a & more & post & E & _); discriminate.
  - destruct rdn as [|a0 more0].
    + split; [discriminate|].
      intros ([|r pre] & a & more & post & E & F & _).
      * discriminate.
      * injection E as <- _. inversion F as [|? ? (x & m & Ex & _) _].
        discriminate.
    + destruct (oid_eqb (atv_type a0) id_at_commonName) eqn:Eo.
      * split.
        -- intros H. exists [], a0, more0, rest.
           repeat split; [constructor | assumption|].
           destruct (der_DirectoryString (atv_value a0)); simpl in H;
             now inversion H.
        -- intros ([|r pre] & a & more & post & E & F & Ea & Ed).
           ++ injection E as <- <- <-. now rewrite Ed.
           ++ injection E as <- _. inversion F as [|? ? (x & m & Ex & En) _].
              injection Ex as <- _. congruence.
      * rewrite IH. split.
        -- intros (pre & a & more & post & -> & F & Ea & Ed).
           exists ((a0 :: more0) :: pre), a, more, post.
           repeat split; try assumption.
           constructor; [now exists a0, more0 | assumption].
        -- intros ([|r pre] & a & more & post & E & F & Ea & Ed).
           ++ injection E as <- <- <-. congruence.
           ++ injection E as <- ->. exists pre, a, more, post.
              repeat split; try assumption. now inversion F.
Qed.

Lemma common_name_of_none rdns :
  common_name_of rdns = Ok VNone <-> Forall not_common_name rdns.
Proof.
  induction rdns as [|rdn rest IH]; simpl.
  - split; [constructor | reflexivity].
  - destruct rdn as [|a0 more0].
    + split; [discriminate|].
      intros F. inversion F as [|? ? (x & m & Ex & _) _]. discriminate.
    + destruct (oid_eqb (atv_type a0) id_at_commonName) eqn:Eo.
      * split.
        -- destruct (der_DirectoryString (atv_value a0)); discriminate.
        -- intros F. inversion F as [|? ? (x & m & Ex & En) _].
           injection Ex as <- _. congruence.
      * rewrite IH. split.
        -- intros F. constructor; [now exists a0, more0 | assumption].
        -- intros F. now inversion F.
Qed.

(** X9. [get_common_name] looks at the first attribute of every RDN of
    the subject, in order: it returns the decoded value of the first of
    these that is a common name, and [None] exactly when none of them
    is, whatever the later attributes of a multi-valued RDN are. *)
Theorem get_common_name_first csr :
  (forall v,
     get_common_name csr = Ok (VStr v) <->
     exists pre a more post,
       subject (certificationRequestInfo (asn1 csr))
       = (pre ++ (a :: more) :: post)%list
       /\ Forall not_common_name pre
       /\ oid_eqb (atv_type a) id_at_commonName = true
       /\ der_DirectoryString (atv_value a) = Ok v)
  /\ (get_common_name csr = Ok VNone <->
      Forall not_common_name (subject (certificationRequestInfo (asn1 csr)))).
Proof.
  split.
  - intros v. apply common_name_of_found.
  - apply common_name_of_none.
Qed.

Lemma search_class s payload :
  Re.search s = Some payload -> all_in_class payload = true.
Proof.
  induction s as [|c s IH].
  - discriminate.
  - rewrite search_cons.
    destruct (Re.match_here (String c s)) as [g|] eqn:E.
    + intros H. injection H as <-. now apply match_here_inv in E as [Hg _].
    + exact IH.
Qed.

(** X10. A [CSR] object exists exactly for a text in which the pattern
    finds a payload that base64 and the DER decoder accept; the payload
    is made of the base64 alphabet and white space, the object holds the
    decoded request, and [get_pem] gives back the whole text it was built
    from, with what surrounds the block. *)
Theorem CSR_init_returns arg csr :
  CSR_init arg = Ok csr <->
  exists payload der,
    Re.search (text_of arg) = Some payload
    /\ all_in_class payload = true
    /\ b64decode payload = Ok der
    /\ der_CertificationRequest der = Ok (asn1 csr)
    /\ get_pem csr = text_of arg.
Proof.
  unfold CSR_init, parse_pem. fold (text_of arg). split.
  - intros H. apply rbind_ok_inv in H as (a & Hp & H).
    injection H as <-. simpl.
    destruct (Re.search (text_of arg)) as [payload|] eqn:Es; [|discriminate].
    apply rbind_ok_inv in Hp as (der & Hb & Hd).
    exists payload, der. repeat split; try assumption.
    now apply (search_class (text_of arg)).
  - intros (payload & der & Hs & _ & Hb & Hd & Hg).
    rewrite Hs, Hb. cbn [rbind]. rewrite Hd. cbn [rbind].
    destruct csr as [p a]. unfold get_pem in Hg. simpl in *. now subst p.
Qed.

Lemma match_here_not_dash c s :
  (c =? "-")%char = false -> Re.match_here (String c s) = None.
Proof.
  intros H. unfold Re.match_here.
  destruct (Re.strip_prefix Re.BEGIN_REQUEST (String c s)) as [r|] eqn:E;
    [|reflexivity].
  apply strip_prefix_inv in E. unfold Re.BEGIN_REQUEST in E. simpl in E.
  injection E as Ec _. subst c. discriminate.
Qed.

(** X11. Text without a dash before the block and any text after it do
    not matter: the payload of the block, white space included, is what
    the pattern hands on. *)
Theorem search_skips_plain_text before payload after :
  lacks "-" before = true -> all_in_class payload = true ->
  Re.search (before ++ Re.BEGIN_REQUEST ++ payload ++ Re.END_REQUEST ++ after)
  = Some payload.
Proof.
  intros Hb Hp. induction before as [|c before IH].
  - assert (E := match_here_block payload after Hp).
    change ("" ++ Re.BEGIN_REQUEST ++ payload ++ Re.END_REQUEST ++ after)
      with (String "-" ("----BEGIN CERTIFICATE REQUEST-----"
                        ++ payload ++ Re.END_REQUEST ++ after)).
    change (Re.BEGIN_REQUEST ++ payload ++ Re.END_REQUEST ++ after)
      with (String "-" ("----BEGIN CERTIFICATE REQUEST-----"
                        ++ payload ++ Re.END_REQUEST ++ after)) in E.
    rewrite search_cons. now rewrite E.
  - simpl in Hb. apply andb_true_iff in Hb as [Hc Hb].
    apply negb_true_iff in Hc.
    change ((String c before) ++ Re.BEGIN_REQUEST ++ payload
            ++ Re.END_REQUEST ++ after)
      with (String c (before ++ Re.BEGIN_REQUEST ++ payload
                      ++ Re.END_REQUEST ++ after)).
    rewrite search_cons, match_here_not_dash by assumption.
    now apply IH.
Qed.

Lemma list_ascii_append (a b : string) :
  list_ascii_of_string (a ++ b)
  = (list_ascii_of_string a ++ list_ascii_of_string b)%list.
Proof. induction a as [|c a IH]; simpl; [reflexivity | now rewrite IH]. Qed.

Lemma quote_char_form c :
  forallb form_char (list_ascii_of_string (Url.quote_char c)) = true.
Proof. destruct c as [[] [] [] [] [] [] [] []]; reflexivity. Qed.

Lemma quote_plus_form s :
  forallb form_char (list_ascii_of_string (Url.quote_plus s)) = true.
Proof.
  induction s as [|c s IH]; simpl; [reflexivity|].
  now rewrite list_ascii_append, forallb_app, quote_char_form, IH.
Qed.

Lemma piece_form kv :
  forallb form_char (list_ascii_of_string (piece kv)) = true.
Proof.
  unfold piece. rewrite !list_ascii_append, !forallb_app, !quote_plus_form.
  reflexivity.
Qed.

(** X12. [urlencode] loses nothing and produces plain text: two lists of
    pairs with the same encoding are the same list, and every character
    of an encoding is a letter, a digit or one of [_.-~%+&=]. *)
Theorem urlencode_injective_plain :
  (forall q1 q2, Url.urlencode q1 = Url.urlencode q2 -> q1 = q2)
  /\ (forall q, forallb form_char (list_ascii_of_string (Url.urlencode q))
                = true).
Proof.
  split.
  - intros q1 q2 H.
    rewrite <- (form_decode_urlencode q1), <- (form_decode_urlencode q2).
    now rewrite H.
  - intros q. unfold Url.urlencode.
    change (fun kv : string * string =>
              Url.quote_plus (fst kv) ++ "=" ++ Url.quote_plus (snd kv))
      with piece.
    induction q as [|kv q IH]; [reflexivity|].
    destruct q as [|kv' q].
    + simpl. apply piece_form.
    + change (String.concat "&" (map piece (kv :: kv' :: q)))
        with (piece kv ++ "&" ++ String.concat "&" (map piece (kv' :: q))).
      rewrite !list_ascii_append, !forallb_app, piece_form.
      simpl. exact IH.
Qed.

Lemma yield_attributes_none types attrs :
  (forall a, In a attrs ->
             oid_eqb (attr_type a) id_PKCS9_extensionRequest = false) ->
  yield_attributes types attrs = Stop.
Proof.
  induction attrs as [|a rest IH]; intros H; simpl; [reflexivity|].
  rewrite (H a) by now left. simpl. apply IH. intros b Hb. apply H. now right.
Qed.

(** X13. A request without an extension request among its attributes has
    no subject alternative names, whatever the filter and whatever the
    other attributes hold (their values are never decoded), and its
    subjects are its common name alone. *)
Theorem no_extension_request csr :
  (forall a, In a (attributes (certificationRequestInfo (asn1 csr))) ->
             oid_eqb (attr_type a) id_PKCS9_extensionRequest = false) ->
  (forall types, get_subject_alt_names csr types = Stop)
  /\ collect_subjects csr = (cn <~ get_common_name csr ;; Ok [cn]).
Proof.
  intros H.
  assert (G : forall types, get_subject_alt_names csr types = Stop).
  { intros types. now apply yield_attributes_none. }
  split; [exact G|]. unfold collect_subjects. now rewrite G.
Qed.

End DecoderMore.

Lemma get_common_name_first_witness :
  get_common_name (P := Scripted.platform) (Cases.located_request "example.com")
  = Ok (VStr "example.com").
Proof.
  apply (proj1 (get_common_name_first (P := Scripted.platform)
                  (Cases.located_request "example.com"))).
  exists [[{| atv_type := [2; 5; 4; 6]%N; atv_value := "DE" |}]],
    {| atv_type := id_at_commonName; atv_value := "example.com" |}, [], [].
  repeat split.
  constructor; [|constructor].
  now exists {| atv_type := [2; 5; 4; 6]%N; atv_value := "DE" |}, [].
Defined.

Lemma CSR_init_returns_witness :
  get_pem
    {| pem := Cases.request_text;
       asn1 := {| certificationRequestInfo :=
                    {| subject := [[{| atv_type := id_at_commonName;
                                       atv_value := "ZXhhbXBsZQ==" |}]];
                       attributes := [] |} |} |}
  = Cases.request_text.
Proof.
  destruct (proj1 (CSR_init_returns (P := Scripted.platform)
              (OfString Cases.request_text)
              {| pem := Cases.request_text;
                 asn1 := {| certificationRequestInfo :=
                              {| subject := [[{| atv_type := id_at_commonName;
                                                 atv_value := "ZXhhbXBsZQ==" |}]];
                                 attributes := [] |} |} |}) eq_refl)
    as (payload & der & _ & _ & _ & _ & H).
  exact H.
Defined.

Lemma search_skips_plain_text_witness :
  Re.search Cases.request_text = Some "
ZXhhbXBsZQ==
".
Proof.
  exact (search_skips_plain_text "subject: example.com
" "
ZXhhbXBsZQ==
" "
" eq_refl eq_refl).
Defined.

Lemma no_extension_request_witness :
  collect_subjects (P := Scripted.platform) (Cases.plain_request "example.com")
  = Ok [VStr "example.com"].
Proof.
  refine (proj2 (no_extension_request (P := Scripted.platform)
            (Cases.plain_request "example.com") _)).
  intros a [<-|[]]. reflexivity.
Defined.

(** ** The planner and the submission *)

Section PlannerMore.

Context {P : Platform}.

(** X14. A profile the module does not know is refused before anything
    else happens.  For the profiles [smime] and [code] the validated
    resources are fetched and nothing more: the request is not read and
    nothing is submitted. *)
Theorem submit_profiles csr st :
  (forall profile,
     ~ In profile CERTIFICATE_PROFILES ->
     submit_certificate_request profile csr st
     = (Raise (AssertionError (ArgStr "unknown profile")), st))
  /\ (forall profile r st1,
        profile = "smime" \/ profile = "code" ->
        get_validated_resources false st = (Ok r, st1) ->
        submit_certificate_request profile csr st = (Ok tt, st1)).
Proof.
  split.
  - intros profile H. unfold submit_certificate_request.
    apply str_in_not_In in H. rewrite H. reflexivity.
  - intros profile r st1 Hp Hv. unfold submit_certificate_request.
    rewrite (bind_ok _ _ st tt st) by (destruct Hp as [->| ->]; reflexivity).
    rewrite (bind_ok _ _ _ _ _ Hv).
    destruct Hp as [->| ->]; reflexivity.
Qed.

(** X15. The empty string among the validated domains validates nothing:
    it is a suffix of every name, but a name whose first covering domain
    it is fails the truth test of the loop and is reported as having no
    validation. *)
Theorem empty_validated_domain st domains l1 l2 s rest :
  settled st domains ->
  domains = (l1 ++ "" :: l2)%list ->
  (forall x, In x l1 -> ~ is_suffix x s) ->
  covered domains s
  /\ plan (VStr s :: rest) st
     = (Raise (ValueError ("Missing domain validations for " ++ s ++ ".")), st).
Proof.
  intros Hst Hd Hl1. split.
  - exists "". split; [|apply empty_is_suffix].
    subst domains. apply in_or_app. right. now left.
  - unfold plan. rewrite (bind_ok _ _ st tt st) by reflexivity.
    apply bind_raise. simpl cover_subjects.
    rewrite (bind_ok _ _ st (VStr "") st).
    + reflexivity.
    + rewrite (is_validated_domain_settled st domains _ Hst). f_equal.
      apply first_covering_found. exists l1, l2.
      repeat split; [assumption | apply empty_is_suffix | assumption].
Qed.

(** X16. A request without a common name has [None] as its first
    subject.  With no validated domain the plan fails with the missing
    validation of [None]; with one, the look-up itself fails, on the
    method [endswith] that [None] does not have. *)
Theorem missing_common_name st domains rest :
  settled st domains ->
  (domains = [] ->
   plan (VNone :: rest) st
   = (Raise (ValueError "Missing domain validations for None."), st))
  /\ (domains <> [] ->
      plan (VNone :: rest) st
      = (Raise (AttributeError "object has no attribute 'endswith'"), st)).
Proof.
  intros Hst. split; intros Hd; unfold plan;
    rewrite (bind_ok _ _ st tt st) by reflexivity;
    apply bind_raise; simpl cover_subjects.
  - rewrite (bind_ok _ _ st VFalse st); [reflexivity|].
    rewrite (is_validated_domain_settled st domains _ Hst). now subst domains.
  - apply bind_raise.
    rewrite (is_validated_domain_settled st domains _ Hst).
    destruct domains; [now elim Hd | reflexivity].
Qed.

Lemma first_appearance_step acc v l :
  ((if val_in v acc then acc else acc ++ [v])
   ++ filter (fun y => negb (val_in y (if val_in v acc then acc else acc ++ [v])))
             (first_appearance l))%list
  = (acc ++ filter (fun y => negb (val_in y acc)) (first_appearance (v :: l)))%list.
Proof.
  simpl first_appearance. simpl filter. rewrite filter_twice.
  destruct (val_in v acc) eqn:Ein; simpl.
  - f_equal. apply filter_ext_in. intros y _.
    destruct (value_eqb y v) eqn:E; simpl; [|reflexivity].
    apply value_eqb_eq in E. subst y. now rewrite Ein.
  - rewrite <- app_assoc. simpl. f_equal. f_equal.
    apply filter_ext. intros y. unfold val_in. rewrite existsb_app. simpl.
    destruct (value_eqb y v), (existsb (value_eqb y) acc); reflexivity.
Qed.

(** The coverage loop on names that all have a covering domain. *)
Lemma cover_subjects_covered st domains pairs :
  settled st domains ->
  (forall n d, In (n, d) pairs ->
               first_covering (VStr n) domains = Ok (VStr d) /\ d <> "") ->
  forall p,
    cover_subjects (map (fun nd => VStr (fst nd)) pairs) p st
    = (Ok {| subjects_direct :=
               (subjects_direct p
                ++ filter (fun y => negb (val_in y (subjects_direct p)))
                          (first_appearance
                             (map (fun nd => VStr (snd nd)) pairs)))%list;
             subjects_subdomain :=
               (subjects_subdomain p
                ++ map (fun nd => VStr (fst nd))
                       (filter (fun nd => negb (fst nd =? snd nd)) pairs))%list;
             validated_domain_first :=
               if truthy (validated_domain_first p)
               then validated_domain_first p
               else match pairs with
                    | [] => validated_domain_first p
                    | nd :: _ => VStr (snd nd)
                    end |}, st).
Proof.
  intros Hst. induction pairs as [|[n d] pairs IH]; intros Hp p.
  - simpl. rewrite !app_nil_r. unfold ret. f_equal.
    destruct p as [pd ps pf]. simpl. now destruct (truthy pf).
  - destruct (Hp n d (or_introl eq_refl)) as [Hc Hne].
    simpl map. simpl cover_subjects.
    rewrite (bind_ok _ _ st (VStr d) st)
      by (rewrite (is_validated_domain_settled st domains _ Hst);
          now rewrite Hc).
    apply String.eqb_neq in Hne.
    replace (truthy (VStr d)) with true by (simpl; now rewrite Hne).
    rewrite IH by (intros n' d' H'; apply Hp; now right).
    simpl subjects_direct. simpl subjects_subdomain.
    simpl validated_domain_first. rewrite <- first_appearance_step.
    simpl filter. simpl fst. simpl snd. simpl value_eqb.
    destruct (val_in (VStr d) (subjects_direct p)),
      (n =? d), (truthy (validated_domain_first p)) eqn:Et;
      simpl; rewrite ?Et, ?Hne, <- ?app_assoc; reflexivity.
Qed.

Lemma filter_not_in_nil (l : list value) :
  filter (fun y => negb (val_in y [])) l = l.
Proof.
  induction l as [|x l IH]; [reflexivity|].
  cbn [filter]. change (val_in x []) with false. cbn [negb].
  now rewrite IH.
Qed.

(** The plan for subjects that are all covered, each name [n] with
    its first covering domain [d]: the direct domains are the covering
    domains at their first appearance, the subdomains are the names that
    differ from their covering domain, in the order of the subjects, and
    the first validated domain is the one of the first subject.  No
    request is sent for it. *)
Lemma plan_of_covered_run st domains pairs :
  settled st domains ->
  pairs <> [] ->
  (forall n d, In (n, d) pairs ->
               first_covering (VStr n) domains = Ok (VStr d) /\ d <> "") ->
  plan (map (fun nd => VStr (fst nd)) pairs) st
  = (Ok {| subjects_direct :=
             first_appearance (map (fun nd => VStr (snd nd)) pairs);
           subjects_subdomain :=
             map (fun nd => VStr (fst nd))
                 (filter (fun nd => negb (fst nd =? snd nd)) pairs);
           validated_domain_first :=
             match pairs with
             | [] => VNone
             | nd :: _ => VStr (snd nd)
             end |}, st).
Proof.
  intros Hst Hne Hp. unfold plan.
  rewrite (bind_ok _ _ st tt st)
    by (destruct pairs; [now elim Hne | reflexivity]).
  rewrite (bind_ok _ _ _ _ _
             (cover_subjects_covered st domains pairs Hst Hp _)).
  cbn [subjects_direct subjects_subdomain validated_domain_first app truthy].
  rewrite filter_not_in_nil.
  rewrite (bind_ok _ _ st tt st); [reflexivity|].
  destruct pairs as [|nd pairs]; [now elim Hne | reflexivity].
Qed.

(** X17. The plan for subjects that are all covered, each name [n] with
    its first covering domain [d]: the direct domains are the covering
    domains at their first appearance, the subdomains are the names that
    differ from their covering domain, in the order of the subjects, and
    the first validated domain is the one of the first subject.  No
    request is sent for it. *)
Theorem plan_of_covered st domains pairs :
  settled st domains ->
  pairs <> [] ->
  (forall n d, In (n, d) pairs ->
               first_covering (VStr n) domains = Ok (VStr d) /\ d <> "") ->
  plan (map (fun nd => VStr (fst nd)) pairs) st
  = (Ok {| subjects_direct :=
             first_appearance (map (fun nd => VStr (snd nd)) pairs);
           subjects_subdomain :=
             map (fun nd => VStr (fst nd))
                 (filter (fun nd => negb (fst nd =? snd nd)) pairs);
           validated_domain_first :=
             match pairs with
             | [] => VNone
             | nd :: _ => VStr (snd nd)
             end |}, st).
Proof.
  intros Hst Hne Hp. unfold plan.
  rewrite (bind_ok _ _ st tt st)
    by (destruct pairs; [now elim Hne | reflexivity]).
  rewrite (bind_ok _ _ _ _ _
             (cover_subjects_covered st domains pairs Hst Hp _)).
  cbn [subjects_direct subjects_subdomain validated_domain_first app truthy].
  rewrite filter_not_in_nil.
  rewrite (bind_ok _ _ st tt st); [reflexivity|].
  destruct pairs as [|nd pairs]; [now elim Hne | reflexivity].
Qed.

End PlannerMore.

Section PlannerInverse.

Context {P : Platform}.

Lemma NoDup_snoc {A} (l : list A) (v : A) :
  NoDup l -> ~ In v l -> NoDup (l ++ [v]).
Proof.
  induction l as [|x l IH]; intros Hn Hv; simpl.
  - constructor; [intros [] | constructor].
  - inversion Hn as [|? ? Hx Hl]; subst. constructor.
    + rewrite in_app_iff. intros [H|[H|[]]]; [contradiction|].
      apply Hv. now left.
    + apply IH; [assumption|]. intros H. apply Hv. now right.
Qed.

(** What the coverage loop has checked when it ends. *)
Lemma cover_subjects_ok_inv st domains subjects :
  settled st domains ->
  forall p p' st',
    cover_subjects subjects p st = (Ok p', st') ->
    st' = st
    /\ Forall (fun v => exists n d, v = VStr n /\ In d domains
                                    /\ is_suffix d n /\ d <> "") subjects
    /\ (NoDup (subjects_direct p) -> NoDup (subjects_direct p'))
    /\ (forall v, In v (subjects_direct p') ->
                  In v (subjects_direct p)
                  \/ exists d, v = VStr d /\ In d domains).
Proof.
  intros Hst. induction subjects as [|subject rest IH]; intros p p' st' H.
  - simpl in H. unfold ret in H. injection H as <- <-.
    repeat split; [constructor | auto | auto].
  - simpl in H. unfold bind in H.
    rewrite (is_validated_domain_settled st domains subject Hst) in H.
    destruct (first_covering subject domains) as [r|e] eqn:Ec; [|discriminate].
    destruct (truthy r) eqn:Et; [|discriminate].
    assert (Hsub : exists n d, subject = VStr n /\ r = VStr d /\ In d domains
                               /\ is_suffix d n /\ d <> "").
    { destruct subject as [| |n].
      - destruct domains; simpl in Ec; [|discriminate].
        injection Ec as <-. discriminate.
      - destruct domains; simpl in Ec; [|discriminate].
        injection Ec as <-. discriminate.
      - apply first_covering_shape in Ec as [->|(d & -> & Hin & Hs)];
          [discriminate|].
        exists n, d. repeat split; try assumption.
        intros ->. discriminate. }
    destruct Hsub as (n & d & -> & -> & Hin & Hs & Hne).
    apply IH in H as (-> & HF & HN & HI). simpl in HN, HI.
    split; [reflexivity|]. split; [|split].
    + constructor; [now exists n, d | assumption].
    + intros Hp. apply HN.
      destruct (val_in (VStr d) (subjects_direct p)) eqn:Ein; simpl;
        [assumption|].
      apply NoDup_snoc; [assumption|].
      intros Hv. apply val_in_In in Hv. congruence.
    + intros v Hv. destruct (HI v Hv) as [Hd|Hd]; [|now right].
      destruct (val_in (VStr d) (subjects_direct p)); simpl in Hd;
        [now left|].
      apply in_app_iff in Hd as [Hd|[<-|[]]]; [now left|].
      right. now exists d.
Qed.

(** X18. A plan is returned only when every subject is a name with a
    validated domain that is not empty as a suffix; its direct domains
    are validated domains, none of them twice; and the session is as
    before the plan was made. *)
Theorem plan_returns st domains subjects p st' :
  settled st domains ->
  plan subjects st = (Ok p, st') ->
  st' = st
  /\ Forall (fun v => exists n d, v = VStr n /\ In d domains
                                  /\ is_suffix d n /\ d <> "") subjects
  /\ NoDup (subjects_direct p)
  /\ (forall v, In v (subjects_direct p) ->
                exists d, v = VStr d /\ In d domains).
Proof.
  intros Hst H. unfold plan in H.
  apply bind_inv in H as (u & s1 & B1 & H).
  apply lift_run in B1 as [_ ->].
  apply bind_inv in H as (q & s2 & B2 & H).
  apply bind_inv in H as (u' & s3 & B3 & H).
  apply lift_run in B3 as [_ ->].
  unfold ret in H. injection H as -> ->.
  apply (cover_subjects_ok_inv st domains subjects Hst) in B2
    as (-> & HF & HN & HI). simpl in HN, HI.
  split; [reflexivity|]. split; [assumption|]. split.
  - apply HN. constructor.
  - intros v Hv. destruct (HI v Hv) as [[]|Hd]. exact Hd.
Qed.

Lemma append_new_nonempty g : forall acc l,
  append_new acc g = Ok l -> acc <> [] -> l <> [].
Proof.
  induction g as [|tv r IH|e]; simpl; intros acc l H Hne.
  - now injection H as <-.
  - apply IH in H; [assumption|].
    destruct (val_in (VStr (snd tv)) acc); [assumption|].
    intros E. now apply app_eq_nil in E as [_ E].
  - discriminate.
Qed.

(** X19. When every subject of the request has a covering domain, the
    submission goes on, in the state the validated resources were
    fetched in, with the POST to the submission address whose form has
    the subjects joined under [domains] and the text of the request
    under [areaCSR]; it then expects status 302, follows the [location]
    of that response with a GET and expects status 200. *)
Theorem submit_sends_form profile csr st emails domains st1 pairs :
  profile = "server" \/ profile = "xmpp" ->
  get_validated_resources false st = (Ok (emails, domains), st1) ->
  collect_subjects csr = Ok (map (fun nd => VStr (fst nd)) pairs) ->
  (forall n d, In (n, d) pairs ->
               first_covering (VStr n) domains = Ok (VStr d) /\ d <> "") ->
  submit_certificate_request profile csr st
  = (rc <- request_ STARTSSL_SUBMITCSR "POST"
             (Some [("domains", join (map fst pairs)); ("rbcsr", "scsr");
                    ("areaCSR", get_pem csr); ("hidchekcer", "1");
                    ("__EVENTTARGET", "btnSubmit")]) ;;
     _ <- lift (assert_ (status (fst rc) =? 302)%Z
                        (ArgStr "CSR req is not redirecting")) ;;
     location <- lift (getitem (fst rc) "location") ;;
     rc2 <- request_ (STARTSSL_BASEURI ++ location) "GET" None ;;
     _ <- lift (assert_ (status (fst rc2) =? 200)%Z
                        (ArgStr "second_step_certs bad status")) ;;
     ret tt) st1.
Proof.
  intros Hp Hv Hc Hcov.
  assert (Hst := settled_after _ _ _ _ Hv).
  assert (Hne : pairs <> []).
  { unfold collect_subjects in Hc.
    destruct (get_common_name csr) as [cn|e]; [|discriminate].
    simpl in Hc. apply append_new_nonempty in Hc; [|discriminate].
    intros ->. now apply Hc. }
  unfold submit_certificate_request.
  rewrite (bind_ok _ _ st tt st)
    by (destruct Hp as [->| ->]; reflexivity).
  rewrite (bind_ok _ _ _ _ _ Hv).
  replace (str_in profile ["server"; "xmpp"]) with true
    by (destruct Hp as [->| ->]; reflexivity).
  rewrite (bind_ok _ _ st1 (map (fun nd => VStr (fst nd)) pairs) st1)
    by (unfold lift; now rewrite Hc).
  rewrite (bind_ok _ _ _ _ _ (plan_of_covered_run st1 domains pairs Hst Hne Hcov)).
  rewrite (bind_ok _ _ st1
             [("domains", join (map fst pairs)); ("rbcsr", "scsr");
              ("areaCSR", get_pem csr); ("hidchekcer", "1");
              ("__EVENTTARGET", "btnSubmit")] st1).
  - reflexivity.
  - unfold lift, submit_body. rewrite <- (map_map fst VStr).
    now rewrite join_values_strings.
Qed.

(** X20. The loop of the [csr] command announces every file it was
    given, in order and once, whatever becomes of the submissions: no
    failure ends the loop. *)
Theorem main_csr_announces_all profile files : forall st,
  filter is_announcement (fst (main_csr profile files st))
  = map (fun f => Stdout ("Submitting " ++ name f)) files.
Proof.
  induction files as [|f rest IH]; intros st; [reflexivity|].
  simpl main_csr.
  assert (Hone : forall out st',
            submit_file profile f st = (out, st') ->
            filter is_announcement out = [Stdout ("Submitting " ++ name f)]).
  { intros out st' H. unfold submit_file in H. cbv zeta in H.
    assert (Hrep : forall e, filter is_announcement (report e) = []).
    { intros e. unfold report. now destruct (as_ValueError e). }
    assert (Hcons : forall tl,
              filter is_announcement (Stdout ("Submitting " ++ name f) :: tl)
              = Stdout ("Submitting " ++ name f) :: filter is_announcement tl).
    { intros tl. cbn [filter].
      replace (is_announcement (Stdout ("Submitting " ++ name f))) with true;
        [reflexivity|].
      symmetry. apply (prefix_append "Submitting " (name f)). }
    destruct (CSR_init (OfFile f)) as [csr|e].
    - destruct (submit_certificate_request profile csr st) as [[u|e] s1];
        injection H as <- _; rewrite Hcons.
      + reflexivity.
      + now rewrite Hrep.
    - injection H as <- _. rewrite Hcons. now rewrite Hrep. }
  destruct (submit_file profile f st) as [out st'] eqn:Ef.
  specialize (IH st').
  destruct (main_csr profile rest st') as [out' st''].
  simpl fst in *. rewrite filter_app, (Hone out st' eq_refl), IH. reflexivity.
Qed.

End PlannerInverse.

Lemma session_settled domains : settled (Scripted.session domains) domains.
Proof. exists []. repeat split. Qed.

Lemma submit_profiles_witness :
  submit_certificate_request "smime"
    (Scripted.request_for "example.org" "www.example.org")
    (Scripted.session ["example.com"])
  = (Ok tt, Scripted.session ["example.com"]).
Proof.
  exact (proj2 (submit_profiles
                  (Scripted.request_for "example.org" "www.example.org")
                  (Scripted.session ["example.com"]))
           "smime" ([], ["example.com"]) (Scripted.session ["example.com"])
           (or_introl eq_refl) eq_refl).
Defined.

Lemma empty_validated_domain_witness :
  plan [VStr "www.example.com"] (Scripted.session [""; "example.com"])
  = (Raise (ValueError "Missing domain validations for www.example.com."),
     Scripted.session [""; "example.com"]).
Proof.
  refine (proj2 (empty_validated_domain
            (Scripted.session [""; "example.com"]) [""; "example.com"]
            [] ["example.com"] "www.example.com" []
            (session_settled _) eq_refl _)).
  intros x [].
Defined.

Lemma missing_common_name_witness :
  plan [VNone; VStr "www.example.com"] (Scripted.session ["example.com"])
  = (Raise (AttributeError "object has no attribute 'endswith'"),
     Scripted.session ["example.com"]).
Proof.
  apply (proj2 (missing_common_name (Scripted.session ["example.com"])
                  ["example.com"] [VStr "www.example.com"]
                  (session_settled _))).
  discriminate.
Defined.

Lemma plan_of_covered_witness :
  plan [VStr "example.com"; VStr "www.example.com"; VStr "a.example.org";
        VStr "mail.example.com"]
       (Scripted.session ["example.com"; "example.org"])
  = (Ok {| subjects_direct := [VStr "example.com"; VStr "example.org"];
           subjects_subdomain := [VStr "www.example.com"; VStr "a.example.org";
                                  VStr "mail.example.com"];
           validated_domain_first := VStr "example.com" |},
     Scripted.session ["example.com"; "example.org"]).
Proof.
  refine (plan_of_covered (Scripted.session ["example.com"; "example.org"])
            ["example.com"; "example.org"]
            [("example.com", "example.com"); ("www.example.com", "example.com");
             ("a.example.org", "example.org");
             ("mail.example.com", "example.com")]
            (session_settled _) _ _).
  - discriminate.
  - intros n d [E|[E|[E|[E|[]]]]]; injection E as <- <-;
      (split; [reflexivity | discriminate]).
Defined.

Lemma plan_returns_witness :
  NoDup [VStr "example.com"; VStr "example.org"].
Proof.
  exact (proj1 (proj2 (proj2 (plan_returns
           (Scripted.session ["example.com"; "example.org"])
           ["example.com"; "example.org"]
           [VStr "example.com"; VStr "www.example.com"; VStr "a.example.org"]
           {| subjects_direct := [VStr "example.com"; VStr "example.org"];
              subjects_subdomain := [VStr "www.example.com";
                                     VStr "a.example.org"];
              validated_domain_first := VStr "example.com" |}
           (Scripted.session ["example.com"; "example.org"])
           (session_settled _) eq_refl)))).
Defined.

(** With no response left in the script the POST is what fails. *)
Lemma submit_sends_form_witness :
  submit_certificate_request "server"
    (Scripted.request_for "example.com" "www.example.com")
    (Scripted.session ["example.com"])
  = (Raise (Raised "httplib2.ServerNotFoundError" false "no response"),
     Scripted.session ["example.com"]).
Proof.
  refine (eq_trans
            (submit_sends_form "server"
               (Scripted.request_for "example.com" "www.example.com")
               (Scripted.session ["example.com"]) [] ["example.com"]
               (Scripted.session ["example.com"])
               [("example.com", "example.com");
                ("www.example.com", "example.com")]
               (or_introl eq_refl) eq_refl eq_refl _) eq_refl).
  intros n d [E|[E|[]]]; injection E as <- <-;
    (split; [reflexivity | discriminate]).
Defined.

Section NoCommonName.

Context {P : Platform}.

(** C2. The claim fails on a request without a common name.  Its first
    subject is [None], which no validated domain covers; the claim asks
    for the error that names the first uncovered subject, and with a
    validated domain in the list the look-up of [None] raises
    [AttributeError] at [endswith] instead.  With no validated domain at
    all the same request does get the error of line 449, naming [None]. *)
Theorem submit_without_common_name profile csr st emails domains st1 rest :
  profile = "server" \/ profile = "xmpp" ->
  get_validated_resources false st = (Ok (emails, domains), st1) ->
  collect_subjects csr = Ok (VNone :: rest) ->
  (domains <> [] ->
   submit_certificate_request profile csr st
   = (Raise (AttributeError "object has no attribute 'endswith'"), st1))
  /\ (domains = [] ->
      submit_certificate_request profile csr st
      = (Raise (ValueError "Missing domain validations for None."), st1)).
Proof.
  intros Hp Hv Hc.
  assert (Hst := settled_after _ _ _ _ Hv).
  assert (Hrun : submit_certificate_request profile csr st
                 = bind (plan (VNone :: rest))
                        (fun _ =>
                           body <- lift (submit_body (VNone :: rest)
                                                     (get_pem csr)) ;;
                           rc <- request_ STARTSSL_SUBMITCSR "POST" (Some body) ;;
                           _ <- lift (assert_ (status (fst rc) =? 302)%Z
                                        (ArgStr "CSR req is not redirecting")) ;;
                           location <- lift (getitem (fst rc) "location") ;;
                           rc2 <- request_ (STARTSSL_BASEURI ++ location)
                                           "GET" None ;;
                           _ <- lift (assert_ (status (fst rc2) =? 200)%Z
                                        (ArgStr "second_step_certs bad status")) ;;
                           ret tt) st1).
  { unfold submit_certificate_request.
    rewrite (bind_ok _ _ st tt st)
      by (destruct Hp as [->| ->]; reflexivity).
    rewrite (bind_ok _ _ _ _ _ Hv).
    replace (str_in profile ["server"; "xmpp"]) with true
      by (destruct Hp as [->| ->]; reflexivity).
    now rewrite (bind_ok _ _ st1 (VNone :: rest) st1)
      by (unfold lift; now rewrite Hc). }
  rewrite Hrun. split; intros Hd; apply bind_raise; unfold plan;
    rewrite (bind_ok _ _ st1 tt st1) by reflexivity;
    apply bind_raise; simpl cover_subjects.
  - apply bind_raise.
    rewrite (is_validated_domain_settled st1 domains _ Hst).
    destruct domains; [now elim Hd | reflexivity].
  - rewrite (bind_ok _ _ st1 VFalse st1); [reflexivity|].
    rewrite (is_validated_domain_settled st1 domains _ Hst). now subst domains.
Qed.

End NoCommonName.

(** A request for an organization with the name [www.example.org], on a
    session that has [example.com] validated, and on one that has
    nothing validated. *)
Lemma submit_without_common_name_witness :
  collect_subjects (P := Scripted.platform)
    (Cases.anonymous_request "www.example.org")
  = Ok [VNone; VStr "www.example.org"]
  /\ submit_certificate_request "server"
       (Cases.anonymous_request "www.example.org")
       (Scripted.session ["example.com"])
     = (Raise (AttributeError "object has no attribute 'endswith'"),
        Scripted.session ["example.com"])
  /\ submit_certificate_request "server"
       (Cases.anonymous_request "www.example.org")
       (Scripted.session [])
     = (Raise (ValueError "Missing domain validations for None."),
        Scripted.session []).
Proof.
  split; [reflexivity|]. split.
  - apply (proj1 (submit_without_common_name "server"
             (Cases.anonymous_request "www.example.org")
             (Scripted.session ["example.com"]) [] ["example.com"]
             (Scripted.session ["example.com"]) [VStr "www.example.org"]
             (or_introl eq_refl) eq_refl eq_refl)).
    discriminate.
  - exact (proj2 (submit_without_common_name "server"
             (Cases.anonymous_request "www.example.org")
             (Scripted.session []) [] []
             (Scripted.session []) [VStr "www.example.org"]
             (or_introl eq_refl) eq_refl eq_refl) eq_refl).
Defined.
